(** * Feature aggregation of rasa NLU messages

    A shallow embedding of
      - [rasa/nlu/featurizers/featurizer.py]
        ([Features], [DenseFeaturizer._calculate_cls_vector]),
      - [rasa/nlu/featurizers/dense_featurizer/spacy_featurizer.py]
        ([SpacyFeaturizer]),
      - [rasa/nlu/training_data/message.py] ([Message]),
    together with the properties stated about them.

    Conventions.  Python exceptions are values of [exn] carried by
    [result]; a method that mutates its message is a function in the
    state-and-exception monad [M].  The text of a token is the list of
    its Unicode code points, and [strip] removes what Python's
    [str.strip] removes.

    Stored matrices carry exact rationals ([Qc]).  Pooling is embedded a
    second time over an arbitrary element type (module [Dtype]), with two
    instances: exact rationals, and IEEE binary64, where the additions
    and the division of [np.mean] are numpy's, in numpy's order.  What is
    proved of [np.mean] over [Qc] holds of the code as far as its
    arithmetic is exact; what holds of it in floating point is stated
    over [Dtype].

    A numpy array is two-dimensional here (a list of rows and a column
    count).  [np.array([])], one-dimensional in numpy, is the array with
    no rows and [shape[-1] = 0]: iteration, [len], [size] and [shape[-1]],
    which is all the featurizers read of it, agree with numpy's. *)

From stdpp Require Import base numbers list strings pretty gmap fin_maps.
From Stdlib Require Import Strings.Ascii QArith.QArith_base QArith.Qcanon.
From Stdlib Require Import Floats.PrimFloat Numbers.Cyclic.Int63.Uint63.

Close Scope Qc_scope.
Close Scope Q_scope.
Local Open Scope string_scope.
Local Open Scope list_scope.
Local Open Scope nat_scope.
Local Open Scope stdpp_scope.

(** ** Constants imported from modules outside the featurizer sources *)

(** Modelled from the spec: [rasa.nlu.constants.TEXT], the attribute naming
    the raw text; [Message.as_dict] writes the same key literally
    ([text=self.text]). *)
Definition TEXT : string := "text".

(** Modelled from the spec: [rasa.nlu.constants.FEATURE_TYPE_SEQUENCE], the
    SEQUENCE granularity tag. *)
Definition FEATURE_TYPE_SEQUENCE : string := "sequence".

(** Modelled from the spec: [rasa.nlu.constants.FEATURE_TYPE_SENTENCE], the
    SENTENCE granularity tag. *)
Definition FEATURE_TYPE_SENTENCE : string := "sentence".

(** Modelled from the spec: [rasa.nlu.constants.VALID_FEATURE_TYPES], the
    fixed enumerated set of granularities, SEQUENCE and SENTENCE. *)
Definition VALID_FEATURE_TYPES : list string :=
  [FEATURE_TYPE_SEQUENCE; FEATURE_TYPE_SENTENCE].

(** Modelled from the spec: [rasa.utils.tensorflow.constants.MEAN_POOLING]
    and [MAX_POOLING], the two pooling options 'mean' and 'max' (the
    comment on [SpacyFeaturizer.defaults] spells them the same way). *)
Definition MEAN_POOLING : string := "mean".
Definition MAX_POOLING : string := "max".

(** Modelled from the spec: the configuration keys
    [rasa.utils.tensorflow.constants.POOLING] and
    [rasa.nlu.constants.ALIAS]. *)
Definition POOLING : string := "pooling".
Definition ALIAS : string := "alias".

(** ** Exceptions and results *)

(** The messages of the [ValueError]s raised by the sources, kept
    structured; [render] gives the text of the f-string.  The last one is
    raised by numpy, inside [np.concatenate], with numpy's message. *)
Inductive value_error :=
  | InvalidFeatureType (type : string)
  | CannotConcatenateSparseAndDense
  | DenseSequenceDimensionMismatch (n m : nat)
  | SparseSequenceDimensionMismatch (n m : nat)
  | InvalidPoolingOperation (provided : string)
  | NumpyConcatenate (message : string).

Inductive exn :=
  | ValueError (e : value_error)
  | AttributeError (object name : string)
  | KeyError (key : string)
  | TypeError (what : string).

Inductive result (A : Type) :=
  | Ok (a : A)
  | Raise (e : exn).
Arguments Ok {A} a.
Arguments Raise {A} e.

#[global] Instance result_ret : MRet result := λ A a, Ok a.

#[global] Instance result_bind : MBind result := λ A B k r,
  match r with
  | Ok a => k a
  | Raise e => Raise e
  end.

Definition is_ok {A} (r : result A) : bool :=
  match r with Ok _ => true | Raise _ => false end.

Definition nat_to_string (n : nat) : string := pretty n.

Definition render (e : value_error) : string :=
  match e with
  | InvalidFeatureType type =>
      "Invalid feature type '" +:+ type
      +:+ "' used. Valid feature types are: ['sequence', 'sentence']."
  | CannotConcatenateSparseAndDense =>
      "Cannot concatenate sparse and dense features."
  | DenseSequenceDimensionMismatch n m =>
      "Cannot concatenate dense features as sequence dimension does not match: "
      +:+ nat_to_string n +:+ " != " +:+ nat_to_string m +:+ "."
  | SparseSequenceDimensionMismatch n m =>
      "Cannot concatenate sparse features as sequence dimension does not match: "
      +:+ nat_to_string n +:+ " != " +:+ nat_to_string m +:+ "."
  | InvalidPoolingOperation provided =>
      "Invalid pooling operation specified. Available operations are '"
      +:+ MEAN_POOLING +:+ "' or '" +:+ MAX_POOLING
      +:+ "', but provided value is '" +:+ provided +:+ "'."
  | NumpyConcatenate message => message
  end.

(** ** Tensors *)

(** [np.ndarray]: [nd_cols] is [shape[-1]], [nd_rows] the rows in order;
    [len(a)] and [shape[0]] are the number of rows. *)
Record ndarray := NdArray {
  nd_cols : nat;
  nd_rows : list (list Qc)
}.

Definition nd_len (a : ndarray) : nat := length (nd_rows a).

Definition nd_size (a : ndarray) : nat := nd_len a * nd_cols a.

(** Every row has [nd_cols] entries. *)
Definition nd_wf (a : ndarray) : Prop :=
  Forall (fun r => length r = nd_cols a) (nd_rows a).

(** [np.array(rows)] for a list of row vectors of one width.  Of the empty
    list numpy makes a one-dimensional array of shape [(0,)]; it is
    represented by the array without rows and without columns, which has
    the same [len], [size], [shape[-1]] and rows. *)
Definition np_array (rows : list (list Qc)) : ndarray :=
  NdArray (match rows with [] => 0 | r :: _ => length r end) rows.

(** [np.zeros([n, w])] *)
Definition np_zeros (n w : nat) : ndarray :=
  NdArray w (replicate n (replicate w 0%Qc)).

(** [np.concatenate((a, b), axis=-1)] for arrays of equal row count. *)
Definition np_concatenate (a b : ndarray) : ndarray :=
  NdArray (nd_cols a + nd_cols b) (zip_with app (nd_rows a) (nd_rows b)).

(** [scipy.sparse.spmatrix] in coordinate form: the shape and the stored
    entries [(row, column, value)]. *)
Record spmatrix := SpMatrix {
  sp_nrows : nat;
  sp_ncols : nat;
  sp_data : list (nat * nat * Qc)
}.

Definition sp_shift (k : nat) (e : nat * nat * Qc) : nat * nat * Qc :=
  let '(i, j, v) := e in (i, (k + j)%nat, v).

(** [scipy.sparse.hstack([a, b])] for matrices of equal row count. *)
Definition hstack (a b : spmatrix) : spmatrix :=
  SpMatrix (sp_nrows a) (sp_ncols a + sp_ncols b)
           (sp_data a ++ map (sp_shift (sp_ncols a)) (sp_data b)).

(** A Python [str] read character by character: the list of its Unicode
    code points.  A string literal stands for the code points of its
    characters. *)
Definition unicode : Type := list N.

Definition unicode_of_string (s : string) : unicode :=
  map (λ c, N.of_nat (nat_of_ascii c)) (String.list_ascii_of_string s).

Coercion unicode_of_string : string >-> unicode.

(** A token of a spaCy [Doc]: its surface text and its vector. *)
Record token := Token {
  tok_text : unicode;
  tok_vector : list Qc
}.

(** The Python values that occur as tensors, annotations and documents. *)
Inductive pyval :=
  | PyNone
  | PyStr (s : string)
  | PyNdarray (a : ndarray)
  | PySpmatrix (m : spmatrix)
  | PyDoc (doc : list token).

(** [isinstance(v, np.ndarray)] and [isinstance(v, scipy.sparse.spmatrix)] *)
Definition isinstance_ndarray (v : pyval) : bool :=
  match v with PyNdarray _ => true | _ => false end.

Definition isinstance_spmatrix (v : pyval) : bool :=
  match v with PySpmatrix _ => true | _ => false end.

(** ** [class Features] *)

Record Features := mkFeatures {
  features : pyval;
  type : string;
  origin : string;
  message_attribute : string
}.

(** [Features.validate_type] *)
Definition validate_type (type : string) : result unit :=
  if bool_decide (type ∈ VALID_FEATURE_TYPES) then Ok tt
  else Raise (ValueError (InvalidFeatureType type)).

(** [Features.__init__] *)
Definition Features_init (features : pyval) (type message_attribute origin : string)
  : result Features :=
  _ ← validate_type type;
  Ok (mkFeatures features type origin message_attribute).

(** [Features.is_sparse] *)
Definition is_sparse (self : Features) : bool :=
  isinstance_spmatrix (features self).

(** [Features.is_dense] *)
Definition is_dense (self : Features) : bool :=
  negb (is_sparse self).

(** [Features._combine_dense_features] *)
Definition _combine_dense_features (features additional_features : ndarray)
  : result ndarray :=
  if negb (nd_len features =? nd_len additional_features)%nat then
    Raise (ValueError (DenseSequenceDimensionMismatch
                         (nd_len features) (nd_len additional_features)))
  else Ok (np_concatenate features additional_features).

(** [Features._combine_sparse_features] *)
Definition _combine_sparse_features (features additional_features : spmatrix)
  : result spmatrix :=
  if negb (sp_nrows features =? sp_nrows additional_features)%nat then
    Raise (ValueError (SparseSequenceDimensionMismatch
                         (sp_nrows features) (sp_nrows additional_features)))
  else Ok (hstack features additional_features).

(** [len(x)] for a stored value. *)
Definition py_len (v : pyval) : result nat :=
  match v with
  | PyNone => Raise (TypeError "object of type 'NoneType' has no len()")
  | PyStr s => Ok (String.length s)
  | PyNdarray a => Ok (nd_len a)
  | PySpmatrix _ =>
      Raise (TypeError "sparse matrix length is ambiguous; use getnnz() or shape[0]")
  | PyDoc doc => Ok (length doc)
  end.

(** [Features._combine_dense_features] when [features] is a value that
    [is_dense] accepts without being an array: the same comparison of
    lengths, with [len] of that value; when the lengths agree the value
    reaches [np.concatenate], which refuses an operand that is not an
    array of two dimensions. *)
Definition _combine_dense_features_any (features : pyval)
    (additional_features : ndarray) : result ndarray :=
  match features with
  | PyNdarray a => _combine_dense_features a additional_features
  | _ =>
    n ← py_len features;
    if negb (n =? nd_len additional_features)%nat then
      Raise (ValueError (DenseSequenceDimensionMismatch
                           n (nd_len additional_features)))
    else
      Raise (ValueError (NumpyConcatenate
        match features with
        | PyStr _ => "zero-dimensional arrays cannot be concatenated"
        | _ => "all the input arrays must have same number of dimensions"
        end))
  end.

(** [Features.combine_with_features].  [is_dense] is the negation of
    [is_sparse]: in the dense branch [self.features] is any value that is
    not a sparse matrix, and it is handed to [_combine_dense_features] as
    it is. *)
Definition combine_with_features (self : Features) (additional_features : pyval)
  : result pyval :=
  match additional_features with
  | PyNone => Ok (features self)
  | _ =>
    if is_dense self && isinstance_ndarray additional_features then
      match additional_features with
      | PyNdarray b =>
          c ← _combine_dense_features_any (features self) b; Ok (PyNdarray c)
      | _ => Raise (TypeError "ndarray expected")
      end
    else if is_sparse self && isinstance_spmatrix additional_features then
      match features self, additional_features with
      | PySpmatrix a, PySpmatrix b =>
          c ← _combine_sparse_features a b; Ok (PySpmatrix c)
      | _, _ => Raise (TypeError "spmatrix expected")
      end
    else Raise (ValueError CannotConcatenateSparseAndDense)
  end.

(** ** [class DenseFeaturizer]: pooling *)

(** [f.any()] for a row [f] *)
Definition row_any (f : list Qc) : bool :=
  existsb (fun x => negb (bool_decide (x = 0%Qc))) f.

Definition Qc_max (x y : Qc) : Qc :=
  if decide (x ≤ y)%Qc then y else x.

Definition Qc_of_nat (n : nat) : Qc := Q2Qc (inject_Z (Z.of_nat n)).

(** Reduction of the rows of an array along axis 0 with a binary
    operation, as [np.add.reduce] and [np.maximum.reduce] do. *)
Definition reduce_axis0 (op : Qc → Qc → Qc) (rows : list (list Qc)) : list Qc :=
  match rows with
  | [] => []
  | r :: rs => foldl (zip_with op) r rs
  end.

(** [np.mean(a, axis=0, keepdims=True)] *)
Definition np_mean_axis0 (a : ndarray) : ndarray :=
  NdArray (nd_cols a)
          [map (fun s => (s / Qc_of_nat (nd_len a))%Qc)
               (reduce_axis0 Qcplus (nd_rows a))].

(** [np.max(a, axis=0, keepdims=True)] *)
Definition np_max_axis0 (a : ndarray) : ndarray :=
  NdArray (nd_cols a) [reduce_axis0 Qc_max (nd_rows a)].

(** [DenseFeaturizer._calculate_cls_vector] *)
Definition _calculate_cls_vector (features : ndarray) (pooling_operation : string)
  : result ndarray :=
  let non_zero_features := np_array (filter (fun f => row_any f) (nd_rows features)) in
  if (nd_size non_zero_features =? 0)%nat then
    Ok (np_zeros 1 (nd_cols features))
  else if bool_decide (pooling_operation = MEAN_POOLING) then
    Ok (np_mean_axis0 non_zero_features)
  else if bool_decide (pooling_operation = MAX_POOLING) then
    Ok (np_max_axis0 non_zero_features)
  else Raise (ValueError (InvalidPoolingOperation pooling_operation)).

(** The rational with the value of an integer, for writing matrices. *)
Definition q (z : Z) : Qc := Q2Qc (inject_Z z).

(** Closed equations between rationals in canonical form: both sides are
    evaluated and compared as fractions. *)
Ltac qc_eval :=
  vm_compute;
  repeat first
    [ reflexivity
    | apply Qc_is_canon; reflexivity
    | progress f_equal ].

(** ** [class Message] *)

(** [self.features] is the field [message_features]; the name [features]
    is the tensor field of [Features]. *)
Record Message := mkMessage {
  text : string;
  time : option string;
  data : gmap string pyval;
  message_features : list Features;
  output_properties : gset string
}.

(** [Message.__init__] *)
Definition Message_init (text : string) (data : option (gmap string pyval))
    (output_properties : option (gset string)) (time : option string)
    (features : option (list Features)) : Message :=
  mkMessage text time (default ∅ data) (default [] features)
            (default ∅ output_properties).

(** [Message.add_features]: [self.features.append(features)] *)
Definition add_features (self : Message) (features : Features) : Message :=
  mkMessage (text self) (time self) (data self)
            (message_features self ++ [features]) (output_properties self).

(** [Message.set] *)
Definition set (self : Message) (prop : string) (info : pyval)
    (add_to_output : bool) : Message :=
  mkMessage (text self) (time self) (<[prop := info]> (data self))
            (message_features self)
            (if add_to_output then {[prop]} ∪ output_properties self
             else output_properties self).

(** [Message.get] *)
Definition get (self : Message) (prop : string) (default : pyval) : pyval :=
  if bool_decide (prop = TEXT) then PyStr (text self)
  else match data self !! prop with
       | Some v => v
       | None => default
       end.

Definition is_not_None (v : pyval) : bool :=
  match v with PyNone => false | _ => true end.

(** [Message.as_dict] *)
Definition as_dict (self : Message) (only_output_properties : bool)
  : gmap string pyval :=
  let d :=
    if only_output_properties then
      filter (λ kv : string * pyval, kv.1 ∈ output_properties self) (data self)
    else data self in
  let d := filter (λ kv : string * pyval, is_not_None kv.2 = true) d in
  <["text" := PyStr (text self)]> d.

(** *** Retrieval of combined features *)

(** The names that [message.py] looks up on the class [Features] while it
    retrieves features: [Features.SEQUENCE], [Features.SENTENCE] and
    [Features.combine_features].  A namespace gives each name its binding,
    or [None] where the class body binds no such name, in which case the
    lookup raises [AttributeError]. *)
Record FeaturesNamespace := mkNamespace {
  ns_SEQUENCE : option string;
  ns_SENTENCE : option string;
  ns_combine_features : option (pyval → Features → result pyval)
}.

(** The class as [featurizer.py] defines it.  Its body binds [__init__],
    [validate_type], [is_sparse], [is_dense], [combine_with_features],
    [_combine_dense_features] and [_combine_sparse_features]: none of the
    three names above. *)
Definition Features_class : FeaturesNamespace :=
  mkNamespace None None None.

(** The class with the three names bound to what the rest of the sources
    use for them: the granularity constants that [SpacyFeaturizer] passes
    to [Features], and [combine_with_features] applied to the incoming
    record with the tensor combined so far. *)
Definition Features_class_resolved : FeaturesNamespace :=
  mkNamespace (Some FEATURE_TYPE_SEQUENCE) (Some FEATURE_TYPE_SENTENCE)
              (Some (fun combined f => combine_with_features f combined)).

Definition class_attr {A} (binding : option A) (name : string) : result A :=
  match binding with
  | Some a => Ok a
  | None => Raise (AttributeError "Features" name)
  end.

(** [x in l] for a Python list of strings, and [not l] *)
Definition py_in (x : string) (l : list string) : bool := bool_decide (x ∈ l).
Definition py_not {A} (l : list A) : bool :=
  match l with [] => true | _ => false end.

(** The comprehension
    [[f for f in features if f.type == Features.<NAME> and
      (f.origin in featurizers or not sentence_featurizers)]];
    the class attribute is looked up once per element. *)
Fixpoint select_features (binding : option string) (name : string)
    (featurizers sentence_featurizers : list string) (features : list Features)
  : result (list Features) :=
  match features with
  | [] => Ok []
  | f :: rest =>
      granularity ← class_attr binding name;
      selected ← select_features binding name featurizers sentence_featurizers rest;
      Ok (if bool_decide (type f = granularity)
             && (py_in (origin f) featurizers || py_not sentence_featurizers)
          then f :: selected else selected)
  end.

(** The loop
    [for f in fs: combined = Features.combine_features(combined, f)] *)
Fixpoint combine_loop (cls : FeaturesNamespace) (combined : pyval)
    (fs : list Features) : result pyval :=
  match fs with
  | [] => Ok combined
  | f :: rest =>
      combine_features ← class_attr (ns_combine_features cls) "combine_features";
      combined' ← combine_features combined f;
      combine_loop cls combined' rest
  end.

(** The body shared by [get_sparse_features] and [get_dense_features]
    after the first comprehension. *)
Definition get_features_from (cls : FeaturesNamespace) (features : list Features)
    (sequence_featurizers sentence_featurizers : list string)
  : result (pyval * pyval) :=
  if py_not features then Ok (PyNone, PyNone)
  else
    sequence_features ←
      select_features (ns_SEQUENCE cls) "SEQUENCE"
                      sequence_featurizers sentence_featurizers features;
    sentence_features ←
      select_features (ns_SENTENCE cls) "SENTENCE"
                      sentence_featurizers sentence_featurizers features;
    if py_not sequence_features && py_not sentence_features then
      Ok (PyNone, PyNone)
    else
      combined_sequence_features ← combine_loop cls PyNone sequence_features;
      combined_sentence_features ← combine_loop cls PyNone sentence_features;
      Ok (combined_sequence_features, combined_sentence_features).

(** [Message.get_sparse_features], for a given class [Features] *)
Definition get_sparse_features_in (cls : FeaturesNamespace) (self : Message)
    (attribute : string) (sequence_featurizers sentence_featurizers : list string)
  : result (pyval * pyval) :=
  let features :=
    filter (λ f, bool_decide (message_attribute f = attribute) && is_sparse f = true)
           (message_features self) in
  get_features_from cls features sequence_featurizers sentence_featurizers.

(** [Message.get_dense_features], for a given class [Features] *)
Definition get_dense_features_in (cls : FeaturesNamespace) (self : Message)
    (attribute : string) (sequence_featurizers sentence_featurizers : list string)
  : result (pyval * pyval) :=
  let features :=
    filter (λ f, bool_decide (message_attribute f = attribute) && is_dense f = true)
           (message_features self) in
  get_features_from cls features sequence_featurizers sentence_featurizers.

(** [Message.get_sparse_features] and [Message.get_dense_features] as they
    run: the class is the one of [featurizer.py]. *)
Definition get_sparse_features := get_sparse_features_in Features_class.
Definition get_dense_features := get_dense_features_in Features_class.

(** ** [class SpacyFeaturizer] *)

(** Python's [str.strip()] and the truth value of a string.  The
    characters that [strip] removes are the Unicode whitespace characters
    of [str.isspace]: U+0009 to U+000D, U+001C to U+0020, U+0085, U+00A0,
    U+1680, U+2000 to U+200A, U+2028, U+2029, U+202F, U+205F and
    U+3000. *)
Definition in_range (lo hi c : N) : bool := ((lo <=? c) && (c <=? hi))%N.

Definition is_whitespace (c : N) : bool :=
  in_range 0x0009 0x000D c || in_range 0x001C 0x0020 c
  || (c =? 0x0085)%N || (c =? 0x00A0)%N || (c =? 0x1680)%N
  || in_range 0x2000 0x200A c
  || (c =? 0x2028)%N || (c =? 0x2029)%N || (c =? 0x202F)%N
  || (c =? 0x205F)%N || (c =? 0x3000)%N.

Fixpoint lstrip (s : unicode) : unicode :=
  match s with
  | [] => []
  | c :: s' => if is_whitespace c then lstrip s' else s
  end.

Fixpoint rstrip (s : unicode) : unicode :=
  match s with
  | [] => []
  | c :: s' =>
      match rstrip s' with
      | [] => if is_whitespace c then [] else [c]
      | r => c :: r
      end
  end.

Definition strip (s : unicode) : unicode := rstrip (lstrip s).

Definition unicode_truthy (s : unicode) : bool :=
  match s with [] => false | _ => true end.

Definition str_truthy (s : string) : bool :=
  match s with EmptyString => false | _ => true end.

(** The state-and-exception monad of a method that mutates its message:
    the outcome, and the message as the call leaves it (also when it
    raises). *)
Definition M (A : Type) : Type := Message → result A * Message.

#[global] Instance M_ret : MRet M := λ A a message, (Ok a, message).

#[global] Instance M_bind : MBind M := λ A B k c message,
  match c message with
  | (Ok a, message') => k a message'
  | (Raise e, message') => (Raise e, message')
  end.

(** A computation that does not touch the message. *)
Definition lift {A} (r : result A) : M A := λ message, (r, message).

(** Reading the message, and [message.add_features(f)]. *)
Definition read {A} (f : Message → A) : M A := λ message, (Ok (f message), message).
Definition do_add_features (f : Features) : M unit :=
  λ message, (Ok tt, add_features message f).

Record SpacyFeaturizer := mkSpacyFeaturizer {
  component_config : gmap string string;
  pooling_operation : string
}.

(** [SpacyFeaturizer.defaults] *)
Definition defaults : gmap string string :=
  <[POOLING := MEAN_POOLING]> (<[ALIAS := "spacy_featurizer"]> ∅).

(** [d[key]] on a configuration dictionary *)
Definition getitem (d : gmap string string) (key : string) : result string :=
  match d !! key with
  | Some v => Ok v
  | None => Raise (KeyError key)
  end.

(** Modelled from the spec: [Component.__init__] of [rasa.nlu.components]
    is not among the sources.  The adapter's configuration is resolved once
    at construction: the supplied options are stored over the class
    defaults.  The base class knows no option by name and validates
    none. *)
Definition Component_init_defaults (defaults : gmap string string)
    (component_config : option (gmap string string))
  : result (gmap string string) :=
  Ok (default ∅ component_config ∪ defaults).

(** [SpacyFeaturizer._features_for_doc] *)
Definition _features_for_doc (doc : list token) : ndarray :=
  np_array (map tok_vector
              (filter (λ t, unicode_truthy (tok_text t)
                            && unicode_truthy (strip (tok_text t)) = true) doc)).

(** What [for t in doc] hands to [_features_for_doc] when [doc] is a
    stored value: the tokens of a document; nothing at all for an empty
    string and for an array or a matrix without rows.  The first item of
    a string (a character) or of an array (a row) has no attribute
    [text], and the comprehension raises [AttributeError] there; so does
    the first row of a sparse matrix in a format that can be indexed by
    row (a matrix in scipy's COO format raises on the indexing
    itself). *)
Definition tokens_of (v : pyval) : result (list token) :=
  match v with
  | PyDoc doc => Ok doc
  | PyStr EmptyString => Ok []
  | PyStr _ => Raise (AttributeError "str" "text")
  | PyNdarray a =>
      if (nd_len a =? 0)%nat then Ok []
      else Raise (AttributeError "numpy.ndarray" "text")
  | PySpmatrix m =>
      if (sp_nrows m =? 0)%nat then Ok []
      else Raise (AttributeError "spmatrix" "text")
  | PyNone => Raise (TypeError "'NoneType' object is not iterable")
  end.

Section Adapter.

(** [super().__init__]: from the class defaults and the supplied
    configuration to the stored [self.component_config]. *)
Variable Component_init :
  gmap string string → option (gmap string string) → result (gmap string string).

(** [rasa.nlu.constants.SPACY_DOCS]: for each attribute, the key under
    which its spaCy document is stored in the message. *)
Variable SPACY_DOCS : gmap string string.

(** [SpacyFeaturizer.__init__] *)
Definition SpacyFeaturizer_init (component_config : option (gmap string string))
  : result SpacyFeaturizer :=
  config ← Component_init defaults component_config;
  pooling ← getitem config POOLING;
  Ok (mkSpacyFeaturizer config pooling).

(** [SpacyFeaturizer.get_doc] *)
Definition get_doc (self : SpacyFeaturizer) (attribute : string) : M pyval :=
  key ← lift (getitem SPACY_DOCS attribute);
  read (λ message, get message key PyNone).

(** [SpacyFeaturizer._set_spacy_features].  Any stored value other than
    [None] is iterated as the document. *)
Definition _set_spacy_features (self : SpacyFeaturizer) (attribute : string)
  : M unit :=
  message_attribute_doc ← get_doc self attribute;
  match message_attribute_doc with
  | PyNone => mret tt
  | _ =>
      doc ← lift (tokens_of message_attribute_doc);
      let features := _features_for_doc doc in
      cls_token_vec ← lift (_calculate_cls_vector features (pooling_operation self));
      alias ← lift (getitem (component_config self) ALIAS);
      final_sequence_features ←
        lift (Features_init (PyNdarray features) FEATURE_TYPE_SEQUENCE attribute alias);
      do_add_features final_sequence_features;;
      alias ← lift (getitem (component_config self) ALIAS);
      final_sentence_features ←
        lift (Features_init (PyNdarray cls_token_vec) FEATURE_TYPE_SENTENCE
                            attribute alias);
      do_add_features final_sentence_features
  end.

(** [SpacyFeaturizer.process] *)
Definition process (self : SpacyFeaturizer) : M unit :=
  _set_spacy_features self TEXT.

End Adapter.

(** ** Notions used to state the properties *)

(** The value of a sparse matrix at a position: stored entries of one
    position add up. *)
Definition sp_entry (m : spmatrix) (i j : nat) : Qc :=
  foldr (λ e acc, let '(i', j', v) := e in
                  if bool_decide (i' = i ∧ j' = j) then (v + acc)%Qc else acc)
        0%Qc (sp_data m).

(** Every stored entry lies inside the shape. *)
Definition sp_wf (m : spmatrix) : Prop :=
  Forall (λ e, let '(i, j, _) := e in i < sp_nrows m ∧ j < sp_ncols m) (sp_data m).

(** [(a combined with b) combined with c] and
    [a combined with (b combined with c)] *)
Definition combine_dense_left (a b c : ndarray) : result ndarray :=
  ab ← _combine_dense_features a b; _combine_dense_features ab c.

Definition combine_dense_right (a b c : ndarray) : result ndarray :=
  bc ← _combine_dense_features b c; _combine_dense_features a bc.

(** Column [j] of a list of rows; the arithmetic mean of a list of
    numbers; the maximum of a list of numbers. *)
Definition column (j : nat) (rows : list (list Qc)) : list Qc :=
  map (λ r, nth j r 0%Qc) rows.

Definition Qc_sum (l : list Qc) : Qc := foldr Qcplus 0%Qc l.

Definition arithmetic_mean (l : list Qc) : Qc :=
  (Qc_sum l / Qc_of_nat (length l))%Qc.

Definition is_maximum (m : Qc) (l : list Qc) : Prop :=
  m ∈ l ∧ Forall (λ x, (x ≤ m)%Qc) l.

Definition non_zero_rows (a : ndarray) : list (list Qc) :=
  filter (λ f, row_any f) (nd_rows a).

(** The stored records that a retrieval call starts from. *)
Definition matching_dense (self : Message) (attribute : string) : list Features :=
  filter (λ f, bool_decide (message_attribute f = attribute) && is_dense f = true)
         (message_features self).

Definition matching_sparse (self : Message) (attribute : string) : list Features :=
  filter (λ f, bool_decide (message_attribute f = attribute) && is_sparse f = true)
         (message_features self).

(** A message that stores one dense and one sparse SEQUENCE record for
    the text, both produced by the featurizer "a". *)
Definition dense_record_a : Features :=
  mkFeatures (PyNdarray (NdArray 1 [[q 1]])) FEATURE_TYPE_SEQUENCE "a" TEXT.

Definition sparse_record_a : Features :=
  mkFeatures (PySpmatrix (SpMatrix 1 1 [(0, 0, q 1)])) FEATURE_TYPE_SEQUENCE "a" TEXT.

Definition message_a : Message :=
  Message_init "hello" None None None (Some [dense_record_a; sparse_record_a]).

(** A text with at least one character that is not whitespace. *)
Fixpoint has_non_whitespace (s : unicode) : bool :=
  match s with
  | [] => false
  | c :: s' => negb (is_whitespace c) || has_non_whitespace s'
  end.

(** The tokens that contribute a row. *)
Definition non_blank_tokens (doc : list token) : list token :=
  filter (λ t, has_non_whitespace (tok_text t) = true) doc.

(** The message that [_set_spacy_features] leaves behind when it appends
    the two records. *)
Definition with_spacy_features (message : Message) (attribute alias : string)
    (sequence pooled : ndarray) : Message :=
  mkMessage (text message) (time message) (data message)
    (message_features message
     ++ [mkFeatures (PyNdarray sequence) FEATURE_TYPE_SEQUENCE alias attribute;
         mkFeatures (PyNdarray pooled) FEATURE_TYPE_SENTENCE alias attribute])
    (output_properties message).

(** A [SPACY_DOCS] table with an entry for the text, an adapter
    configured with the pooling value "median", and a message that carries
    a one-token document for its text. *)
Definition example_SPACY_DOCS : gmap string string :=
  {[TEXT := "text_spacy_doc"]}.

Definition adapter_median : SpacyFeaturizer :=
  mkSpacyFeaturizer ({[POOLING := "median"]} ∪ defaults) "median".

Definition message_with_doc : Message :=
  Message_init "hi" (Some {["text_spacy_doc" := PyDoc [Token "hi" [q 1; q 2]]]})
               None None None.

(** A document of blank tokens: two spaces, the empty text, and a
    no-break space (U+00A0) followed by an em space (U+2003). *)
Definition blank_document : list token :=
  [Token "  " [q 1; q 2]; Token "" [q 3; q 4];
   Token [0xA0%N; 0x2003%N] [q 5; q 6]].

(** * Pooling in the element type of the array *)

(** numpy computes in the element type (dtype) of the array it is given:
    binary floating point for the vectors of spaCy.  [Dtype] embeds
    [DenseFeaturizer._calculate_cls_vector] for any element type; the
    function [_calculate_cls_vector] above is its instance at exact
    rational entries. *)
Module Dtype.

(** What pooling uses of an element type: the entry of [np.zeros], the
    truth value of an entry (as [any()] takes it), the sum of the entries
    of one column as [np.add.reduce] adds them, the quotient of such a sum
    by the number of rows as [np.true_divide] takes it, and the maximum of
    the entries of one column as [np.maximum.reduce] takes it. *)
Record dtype (E : Type) := mkDtype {
  dt_zero : E;
  dt_nonzero : E → bool;
  dt_sum : list E → E;
  dt_divide : E → nat → E;
  dt_maximum : list E → E
}.
Arguments dt_zero {E} _.
Arguments dt_nonzero {E} _ _.
Arguments dt_sum {E} _ _.
Arguments dt_divide {E} _ _ _.
Arguments dt_maximum {E} _ _.

(** A two-dimensional array of entries of type [E]: [cols] is
    [shape[-1]], [rows] the rows in order. *)
Record array (E : Type) := Array {
  cols : nat;
  rows : list (list E)
}.
Arguments Array {E} _ _.
Arguments cols {E} _.
Arguments rows {E} _.

Definition len {E} (a : array E) : nat := length (rows a).

Definition size {E} (a : array E) : nat := len a * cols a.

Definition wf {E} (a : array E) : Prop :=
  Forall (λ r, length r = cols a) (rows a).

(** [np.array(rows)] and [np.zeros([n, w])] *)
Definition np_array {E} (rows : list (list E)) : array E :=
  Array (match rows with [] => 0 | r :: _ => length r end) rows.

Definition np_zeros {E} (dt : dtype E) (n w : nat) : array E :=
  Array w (replicate n (replicate w (dt_zero dt))).

(** [f.any()] for a row [f] *)
Definition row_any {E} (dt : dtype E) (f : list E) : bool :=
  existsb (dt_nonzero dt) f.

(** Column [j] of a list of rows *)
Definition column {E} (dt : dtype E) (j : nat) (rows : list (list E)) : list E :=
  map (λ r, nth j r (dt_zero dt)) rows.

(** [np.mean(a, axis=0, keepdims=True)]: column by column, the sum of the
    column divided by the number of rows. *)
Definition np_mean_axis0 {E} (dt : dtype E) (a : array E) : array E :=
  Array (cols a)
        [map (λ j, dt_divide dt (dt_sum dt (column dt j (rows a))) (len a))
             (seq 0 (cols a))].

(** [np.max(a, axis=0, keepdims=True)] *)
Definition np_max_axis0 {E} (dt : dtype E) (a : array E) : array E :=
  Array (cols a)
        [map (λ j, dt_maximum dt (column dt j (rows a))) (seq 0 (cols a))].

(** [DenseFeaturizer._calculate_cls_vector] *)
Definition _calculate_cls_vector {E} (dt : dtype E) (features : array E)
    (pooling_operation : string) : result (array E) :=
  let non_zero_features :=
    np_array (filter (λ f, row_any dt f) (rows features)) in
  if (size non_zero_features =? 0)%nat then
    Ok (np_zeros dt 1 (cols features))
  else if bool_decide (pooling_operation = MEAN_POOLING) then
    Ok (np_mean_axis0 dt non_zero_features)
  else if bool_decide (pooling_operation = MAX_POOLING) then
    Ok (np_max_axis0 dt non_zero_features)
  else Raise (ValueError (InvalidPoolingOperation pooling_operation)).

Definition non_zero_rows {E} (dt : dtype E) (a : array E) : list (list E) :=
  filter (λ f, row_any dt f) (rows a).

(** Exact arithmetic on rationals: sums and quotients are not rounded. *)
Definition exact : dtype Qc :=
  mkDtype Qc 0%Qc
          (λ x, negb (bool_decide (x = 0%Qc)))
          Qc_sum
          (λ s n, (s / Qc_of_nat n)%Qc)
          (λ l, match l with [] => 0%Qc | x :: l' => foldl Qc_max x l' end).

(** IEEE 754 binary64, numpy's [float64].  A column is added entry after
    entry in row order, as numpy does for every array with fewer than
    eight rows; the count is converted to a float before the division;
    [np.maximum(x, y)] is [x] when [x >= y] or [x] is not a number, and
    [y] otherwise. *)
Definition float_of_nat (n : nat) : float :=
  PrimFloat.of_uint63 (Uint63.of_Z (Z.of_nat n)).

Definition float_maximum (x y : float) : float :=
  if PrimFloat.leb y x || PrimFloat.is_nan x then x else y.

Definition binary64 : dtype float :=
  mkDtype float 0%float
          (λ x, negb (PrimFloat.eqb x 0%float))
          (λ l, match l with [] => 0%float | x :: l' => foldl PrimFloat.add x l' end)
          (λ s n, PrimFloat.div s (float_of_nat n))
          (λ l, match l with [] => 0%float | x :: l' => foldl float_maximum x l' end).

(** The arrays of exact entries are the arrays [ndarray] above. *)
Definition of_ndarray (a : ndarray) : array Qc := Array (nd_cols a) (nd_rows a).
Definition to_ndarray (a : array Qc) : ndarray := NdArray (cols a) (rows a).

End Dtype.

(** The largest entry of [np.array([[1.7e308], [1.7e308]])], the binary64
    number nearest to 1.7e308. *)
Definition float_1_7e308 : float := 0x1.e42d130773b76p+1023%float.

(** * The rest of the sources *)

(** ** [Message]: intents, response keys and training-data export *)

(** [s.split(sep)] for a separator that is not empty: the pieces between
    the occurrences of [sep], found from left to right.  [skip] counts the
    characters of an occurrence still to be passed over, [cur] is the piece
    read so far. *)
Fixpoint split_from (sep s : string) (skip : nat) (cur : string) : list string :=
  match s with
  | EmptyString => [cur]
  | String c s' =>
      match skip with
      | S k => split_from sep s' k cur
      | O =>
          if String.prefix sep s then
            cur :: split_from sep s' (String.length sep - 1) EmptyString
          else split_from sep s' 0 (cur +:+ String c EmptyString)
      end
  end.

Definition py_split (sep s : string) : list string :=
  split_from sep s 0 EmptyString.

(** What may stand on the other side of [==]: a message, or anything
    else. *)
Inductive pyobject :=
  | ObjMessage (m : Message)
  | ObjValue (v : pyval).

Section MessageRest.

(** The attribute names of [rasa.nlu.constants] that [message.py]
    imports. *)
Variables INTENT RESPONSE RESPONSE_KEY_ATTRIBUTE ENTITIES : string.

(** [rasa.nlu.constants.RESPONSE_IDENTIFIER_DELIMITER], a string that is
    not empty: its first character and the rest. *)
Variable delimiter_head : ascii.
Variable delimiter_tail : string.

Definition RESPONSE_IDENTIFIER_DELIMITER : string :=
  String delimiter_head delimiter_tail.

(** The truth value and [str()] of a value that is neither [None] nor a
    string are those of numpy, scipy and spaCy. *)
Variable bool_other : pyval → result bool.
Variable str_other : pyval → string.

(** [bool(v)], as the [if v:] tests take it *)
Definition py_bool (v : pyval) : result bool :=
  match v with
  | PyNone => Ok false
  | PyStr s => Ok (str_truthy s)
  | _ => bool_other v
  end.

(** [str(v)], as an f-string formats it *)
Definition py_str (v : pyval) : string :=
  match v with
  | PyNone => "None"
  | PyStr s => s
  | _ => str_other v
  end.

(** [Message.get_combined_intent_response_key] *)
Definition get_combined_intent_response_key (self : Message) : result string :=
  let intent := get self INTENT PyNone in
  let response_key := get self RESPONSE_KEY_ATTRIBUTE PyNone in
  truthy ← py_bool response_key;
  let response_key_suffix :=
    if truthy : bool then RESPONSE_IDENTIFIER_DELIMITER +:+ py_str response_key
    else EmptyString in
  Ok (py_str intent +:+ response_key_suffix).

(** [Message.separate_intent_response_key]; with three pieces or more the
    method falls off its end and returns [None]. *)
Definition separate_intent_response_key (original_intent : string)
  : option (string * option string) :=
  let split_title := py_split RESPONSE_IDENTIFIER_DELIMITER original_intent in
  match split_title with
  | [a; b] => Some (a, Some b)
  | [a] => Some (a, None)
  | _ => None
  end.

(** [Message.build]; [intent] is a string or [None], [entities] any value.
    Unpacking the [None] that [separate_intent_response_key] may return is
    a [TypeError]. *)
Definition build (text : string) (intent : option string) (entities : pyval)
  : result Message :=
  data ←
    (if str_truthy (default EmptyString intent) then
       match separate_intent_response_key (default EmptyString intent) with
       | None => Raise (TypeError "cannot unpack non-iterable NoneType object")
       | Some (split_intent, response_key) =>
           let data : gmap string pyval := <[INTENT := PyStr split_intent]> ∅ in
           Ok (if str_truthy (default EmptyString response_key)
               then <[RESPONSE_KEY_ATTRIBUTE :=
                        PyStr (default EmptyString response_key)]> data
               else data)
       end
     else Ok ∅ : result (gmap string pyval));
  truthy ← py_bool entities;
  let data := if truthy : bool then <[ENTITIES := entities]> data else data in
  Ok (Message_init text (Some data) None None None).

(** [Message.as_dict_nlu] *)
Definition as_dict_nlu (self : Message) : result (gmap string pyval) :=
  let d := as_dict self false in
  truthy ← py_bool (default PyNone (d !! INTENT));
  d ← (if truthy : bool then
         combined ← get_combined_intent_response_key self;
         Ok (<[INTENT := PyStr combined]> d)
       else Ok d : result (gmap string pyval));
  Ok (delete RESPONSE (delete RESPONSE_KEY_ATTRIBUTE d)).

(** [rasa.nlu.utils.ordered], [==] on what it returns, [str()] of what it
    returns, and [hash()] of a pair of strings. *)
Variable Ordered : Type.
Variable ordered : gmap string pyval → Ordered.
Variable ordered_eq : Ordered → Ordered → bool.
Variable ordered_str : Ordered → string.
Variable py_hash : string * string → Z.

(** [Message.__eq__]; the pair of the texts and the ordered data is
    compared component by component. *)
Definition Message_eq (self : Message) (other : pyobject) : bool :=
  match other with
  | ObjMessage other =>
      bool_decide (text other = text self)
      && ordered_eq (ordered (data other)) (ordered (data self))
  | ObjValue _ => false
  end.

(** [Message.__hash__] *)
Definition Message_hash (self : Message) : Z :=
  py_hash (text self, ordered_str (ordered (data self))).

End MessageRest.

(** ** [SpacyFeaturizer.train] *)

Section Train.

Variable SPACY_DOCS : gmap string string.

(** [rasa.nlu.constants.DENSE_FEATURIZABLE_ATTRIBUTES] *)
Variable DENSE_FEATURIZABLE_ATTRIBUTES : list string.

(** The inner loop of [train] on one example:
    [for attribute in DENSE_FEATURIZABLE_ATTRIBUTES:
       self._set_spacy_features(example, attribute)] *)
Fixpoint set_spacy_features_for (self : SpacyFeaturizer) (attributes : list string)
  : M unit :=
  match attributes with
  | [] => mret tt
  | attribute :: rest =>
      _set_spacy_features SPACY_DOCS self attribute;;
      set_spacy_features_for self rest
  end.

(** [SpacyFeaturizer.train] on [training_data.intent_examples], a list of
    distinct message objects; the list is returned as the call leaves it,
    also when it raises. *)
Fixpoint train (self : SpacyFeaturizer) (intent_examples : list Message)
  : result unit * list Message :=
  match intent_examples with
  | [] => (Ok tt, [])
  | example :: rest =>
      match set_spacy_features_for self DENSE_FEATURIZABLE_ATTRIBUTES example with
      | (Ok _, example') =>
          let '(r, rest') := train self rest in (r, example' :: rest')
      | (Raise e, example') => (Raise e, example' :: rest)
      end
  end.

End Train.

(** ** Notions used to state further properties *)

(** [l] extends [k] at its end. *)
Definition extends_features (k l : list Features) : Prop :=
  ∃ added, l = k ++ added.

(** A message differs from another at most by records appended to its
    feature list. *)
Definition only_appends (before after : Message) : Prop :=
  text after = text before
  ∧ time after = time before
  ∧ data after = data before
  ∧ output_properties after = output_properties before
  ∧ extends_features (message_features before) (message_features after).

(** [(a combined with b) combined with c] and
    [a combined with (b combined with c)], for sparse matrices *)
Definition combine_sparse_left (a b c : spmatrix) : result spmatrix :=
  ab ← _combine_sparse_features a b; _combine_sparse_features ab c.

Definition combine_sparse_right (a b c : spmatrix) : result spmatrix :=
  bc ← _combine_sparse_features b c; _combine_sparse_features a bc.

(** The rest of a string after its first [n] characters. *)
Fixpoint str_drop (n : nat) (s : string) : string :=
  match n, s with
  | O, _ => s
  | S n', String _ s' => str_drop n' s'
  | S _, EmptyString => EmptyString
  end.

(** * Properties *)

(** ** The [Features] record and its combination rules *)

Lemma validate_type_ok (ty : string) :
  validate_type ty = Ok tt ↔ ty ∈ VALID_FEATURE_TYPES.
Proof.
  unfold validate_type. case_bool_decide; split; intros; try done.
Qed.

Lemma Features_init_valid (x : pyval) (ty a o : string) :
  ty ∈ VALID_FEATURE_TYPES → Features_init x ty a o = Ok (mkFeatures x ty o a).
Proof.
  intros Hty. unfold Features_init, validate_type.
  by rewrite bool_decide_eq_true_2.
Qed.

(** C10.  A record that [Features.__init__] returned stores the given
    value untouched; its [is_dense] is the negation of its [is_sparse];
    [is_sparse] holds exactly when the stored value is a scipy sparse
    matrix, so any other value, array or not, counts as dense; and the
    only check of the constructor is the one on the type tag: with the
    same tag it succeeds on every other value too. *)
Theorem C10_sparsity_classification (x : pyval) (ty a o : string) (r : Features)
    (Hinit : Features_init x ty a o = Ok r) :
  r = mkFeatures x ty o a
  ∧ is_dense r = negb (is_sparse r)
  ∧ (is_sparse r = true ↔ ∃ m, x = PySpmatrix m)
  ∧ ((∀ m, x ≠ PySpmatrix m) → is_dense r = true)
  ∧ ty ∈ VALID_FEATURE_TYPES
  ∧ (∀ x', Features_init x' ty a o = Ok (mkFeatures x' ty o a)).
Proof.
  assert (Hty : ty ∈ VALID_FEATURE_TYPES).
  { apply validate_type_ok. unfold Features_init in Hinit.
    destruct (validate_type ty) as [[]|e]; [done | discriminate Hinit]. }
  rewrite (Features_init_valid _ _ _ _ Hty) in Hinit.
  injection Hinit as <-.
  repeat split; try done.
  - unfold is_sparse; simpl. destruct x; try discriminate. eauto.
  - intros [m ->]. done.
  - intros Hx. unfold is_dense, is_sparse; simpl.
    destruct x; try done. by destruct (Hx m).
  - intros x'. by apply Features_init_valid.
Qed.

Lemma C10_sparsity_classification_witness :
  is_dense (mkFeatures (PyStr "not an array") FEATURE_TYPE_SENTENCE "vec" TEXT) = true.
Proof.
  destruct (C10_sparsity_classification (PyStr "not an array")
              FEATURE_TYPE_SENTENCE TEXT "vec"
              (mkFeatures (PyStr "not an array") FEATURE_TYPE_SENTENCE "vec" TEXT)
              eq_refl) as (_ & _ & _ & Hdense & _).
  apply Hdense. intros m. discriminate.
Defined.

(** C6.  A dense record combined with a sparse tensor, and a sparse
    record combined with a dense tensor, raise the [ValueError] "Cannot
    concatenate sparse and dense features."; neither tensor is
    converted. *)
Theorem C6_mixed_sparsity_fails (a : ndarray) (m : spmatrix)
    (ty ty' o o' attr attr' : string) :
  combine_with_features (mkFeatures (PyNdarray a) ty o attr) (PySpmatrix m)
    = Raise (ValueError CannotConcatenateSparseAndDense)
  ∧ combine_with_features (mkFeatures (PySpmatrix m) ty' o' attr') (PyNdarray a)
    = Raise (ValueError CannotConcatenateSparseAndDense).
Proof. split; reflexivity. Qed.

(** *** Horizontal concatenation *)

Lemma np_concatenate_len (a b : ndarray) :
  nd_len a = nd_len b → nd_len (np_concatenate a b) = nd_len a.
Proof.
  unfold nd_len, np_concatenate; simpl. intros H.
  rewrite length_zip_with. lia.
Qed.

Lemma np_concatenate_wf (a b : ndarray) :
  nd_wf a → nd_wf b → nd_wf (np_concatenate a b).
Proof.
  unfold nd_wf, np_concatenate; simpl.
  generalize (nd_cols a) (nd_cols b); intros wa wb.
  generalize (nd_rows b). induction (nd_rows a) as [|ra ras IH];
    intros [|rb rbs] Ha Hb; simpl; try constructor.
  - rewrite length_app. inversion Ha; inversion Hb; subst. lia.
  - inversion Ha; inversion Hb; subst. by apply IH.
Qed.

Lemma np_concatenate_row (a b : ndarray) (i : nat) (ra rb : list Qc) :
  nd_rows a !! i = Some ra → nd_rows b !! i = Some rb →
  nd_rows (np_concatenate a b) !! i = Some (ra ++ rb)%list.
Proof.
  intros Ha Hb. unfold np_concatenate; simpl.
  rewrite lookup_zip_with, Ha; simpl. by rewrite Hb.
Qed.

Lemma np_concatenate_assoc (a b c : ndarray) :
  np_concatenate (np_concatenate a b) c = np_concatenate a (np_concatenate b c).
Proof.
  unfold np_concatenate; simpl. f_equal; [lia|].
  generalize (nd_rows b) (nd_rows c).
  induction (nd_rows a) as [|ra ras IH]; intros [|rb rbs] [|rc rcs]; simpl; try done.
  by rewrite IH, (assoc_L app).
Qed.

Lemma sp_entry_app (d1 d2 : list (nat * nat * Qc)) (r c1 c2 i j : nat) :
  sp_entry (SpMatrix r c1 (d1 ++ d2)) i j
  = (sp_entry (SpMatrix r c2 d1) i j + sp_entry (SpMatrix r c2 d2) i j)%Qc.
Proof.
  unfold sp_entry; simpl. induction d1 as [|[[i' j'] v] d1 IH]; simpl.
  - by rewrite Qcplus_0_l.
  - case_bool_decide; [|done]. rewrite IH. by rewrite Qcplus_assoc.
Qed.

Lemma sp_entry_outside (m : spmatrix) (i j : nat) :
  sp_wf m → sp_ncols m ≤ j → sp_entry m i j = 0%Qc.
Proof.
  unfold sp_wf, sp_entry. induction 1 as [|[[i' j'] v] d Hx _ IH]; intros Hj; simpl.
  - done.
  - rewrite bool_decide_eq_false_2 by lia. by apply IH.
Qed.

Lemma sp_entry_shift_left (d : list (nat * nat * Qc)) (r c k i j : nat) :
  j < k → sp_entry (SpMatrix r c (map (sp_shift k) d)) i j = 0%Qc.
Proof.
  intros Hj. unfold sp_entry; simpl. induction d as [|[[i' j'] v] d IH]; simpl.
  - done.
  - by rewrite bool_decide_eq_false_2 by lia.
Qed.

Lemma sp_entry_shift_right (d : list (nat * nat * Qc)) (r r' c c' k i j : nat) :
  k ≤ j →
  sp_entry (SpMatrix r c (map (sp_shift k) d)) i j
  = sp_entry (SpMatrix r' c' d) i (j - k).
Proof.
  intros Hj. unfold sp_entry; simpl. induction d as [|[[i' j'] v] d IH]; simpl.
  - done.
  - rewrite IH.
    destruct (decide (i' = i ∧ j' = j - k)) as [[-> ->]|Hne].
    + rewrite !bool_decide_eq_true_2; [done | done | split; [done | lia]].
    + rewrite !bool_decide_eq_false_2; [done | done | lia].
Qed.

Lemma hstack_entry (a b : spmatrix) (i j : nat) :
  sp_wf a →
  sp_entry (hstack a b) i j
  = if decide (j < sp_ncols a) then sp_entry a i j
    else sp_entry b i (j - sp_ncols a).
Proof.
  intros Ha. unfold hstack.
  rewrite (sp_entry_app _ _ _ _ (sp_ncols a)).
  destruct a as [ra ca da], b as [rb cb db]; simpl in *.
  case_decide.
  - rewrite sp_entry_shift_left by done. by rewrite Qcplus_0_r.
  - rewrite (sp_entry_outside (SpMatrix ra ca da)) by (done || simpl; lia).
    rewrite Qcplus_0_l. apply sp_entry_shift_right. lia.
Qed.

(** A record whose tensor is neither a matrix nor an array counts as
    dense; combining it with an array compares [len] of the two, and
    raises the dense sequence-dimension error when they differ. *)
Example combine_with_features_dense_text :
  combine_with_features (mkFeatures (PyStr "ab") FEATURE_TYPE_SEQUENCE "origin" TEXT)
                        (PyNdarray (NdArray 1 [[q 1]; [q 2]; [q 3]]))
  = Raise (ValueError (DenseSequenceDimensionMismatch 2 3))
  ∧ combine_with_features (mkFeatures PyNone FEATURE_TYPE_SEQUENCE "origin" TEXT)
                          (PyNdarray (NdArray 1 [[q 1]]))
    = Raise (TypeError "object of type 'NoneType' has no len()").
Proof. split; reflexivity. Qed.

Lemma _combine_dense_features_eq (a b : ndarray) :
  nd_len a = nd_len b →
  _combine_dense_features a b = Ok (np_concatenate a b).
Proof.
  intros H. unfold _combine_dense_features.
  by rewrite H, Nat.eqb_refl.
Qed.

Lemma _combine_dense_features_ne (a b : ndarray) :
  nd_len a ≠ nd_len b →
  _combine_dense_features a b
  = Raise (ValueError (DenseSequenceDimensionMismatch (nd_len a) (nd_len b))).
Proof.
  intros H. unfold _combine_dense_features.
  by apply Nat.eqb_neq in H as ->.
Qed.

(** C4.  Two dense tensors, or two sparse tensors, with as many rows each
    combine to their horizontal concatenation: the row count is kept, the
    column counts add up, and row by row (dense) or entry by entry
    (sparse) the first tensor is followed by the second.  With different
    row counts the combination raises the [ValueError] on the sequence
    dimension, which carries the two row counts. *)
Theorem C4_same_sparsity_concatenation
    (a b : ndarray) (sa sb : spmatrix) (ty o attr : string) :
  (nd_len a = nd_len b →
     combine_with_features (mkFeatures (PyNdarray a) ty o attr) (PyNdarray b)
       = Ok (PyNdarray (np_concatenate a b))
     ∧ nd_len (np_concatenate a b) = nd_len a
     ∧ nd_cols (np_concatenate a b) = nd_cols a + nd_cols b
     ∧ (nd_wf a → nd_wf b → nd_wf (np_concatenate a b))
     ∧ (∀ i ra rb, nd_rows a !! i = Some ra → nd_rows b !! i = Some rb →
          nd_rows (np_concatenate a b) !! i = Some (ra ++ rb)))
  ∧ (nd_len a ≠ nd_len b →
     combine_with_features (mkFeatures (PyNdarray a) ty o attr) (PyNdarray b)
       = Raise (ValueError (DenseSequenceDimensionMismatch (nd_len a) (nd_len b))))
  ∧ (sp_nrows sa = sp_nrows sb →
     combine_with_features (mkFeatures (PySpmatrix sa) ty o attr) (PySpmatrix sb)
       = Ok (PySpmatrix (hstack sa sb))
     ∧ sp_nrows (hstack sa sb) = sp_nrows sa
     ∧ sp_ncols (hstack sa sb) = sp_ncols sa + sp_ncols sb
     ∧ (sp_wf sa → ∀ i j,
          sp_entry (hstack sa sb) i j
          = if decide (j < sp_ncols sa) then sp_entry sa i j
            else sp_entry sb i (j - sp_ncols sa)))
  ∧ (sp_nrows sa ≠ sp_nrows sb →
     combine_with_features (mkFeatures (PySpmatrix sa) ty o attr) (PySpmatrix sb)
       = Raise (ValueError (SparseSequenceDimensionMismatch
                              (sp_nrows sa) (sp_nrows sb)))).
Proof.
  repeat apply conj.
  - intros Hlen. repeat apply conj.
    + unfold combine_with_features; simpl.
      by rewrite _combine_dense_features_eq.
    + by apply np_concatenate_len.
    + done.
    + apply np_concatenate_wf.
    + apply np_concatenate_row.
  - intros Hlen. unfold combine_with_features; simpl.
    by rewrite _combine_dense_features_ne.
  - intros Hlen. repeat apply conj; try done.
    + unfold combine_with_features, _combine_sparse_features; simpl.
      by rewrite Hlen, Nat.eqb_refl.
    + intros Hwf i j. by apply hstack_entry.
  - intros Hlen. unfold combine_with_features, _combine_sparse_features; simpl.
    by apply Nat.eqb_neq in Hlen as ->.
Qed.

Lemma C4_same_sparsity_concatenation_witness :
  combine_with_features
    (mkFeatures (PyNdarray (NdArray 1 [[q 1]; [q 2]])) FEATURE_TYPE_SEQUENCE "vec" TEXT)
    (PyNdarray (NdArray 2 [[q 3; q 4]; [q 5; q 6]]))
  = Ok (PyNdarray (NdArray 3 [[q 1; q 3; q 4]; [q 2; q 5; q 6]]))
  ∧ combine_with_features
      (mkFeatures (PySpmatrix (SpMatrix 2 1 [(0, 0, q 1)])) FEATURE_TYPE_SEQUENCE "bow" TEXT)
      (PySpmatrix (SpMatrix 3 1 [(2, 0, q 1)]))
    = Raise (ValueError (SparseSequenceDimensionMismatch 2 3)).
Proof.
  destruct (C4_same_sparsity_concatenation
              (NdArray 1 [[q 1]; [q 2]]) (NdArray 2 [[q 3; q 4]; [q 5; q 6]])
              (SpMatrix 2 1 [(0, 0, q 1)]) (SpMatrix 3 1 [(2, 0, q 1)])
              FEATURE_TYPE_SEQUENCE "vec" TEXT) as (Heq & _ & _ & _).
  destruct (C4_same_sparsity_concatenation
              (NdArray 1 [[q 1]; [q 2]]) (NdArray 2 [[q 3; q 4]; [q 5; q 6]])
              (SpMatrix 2 1 [(0, 0, q 1)]) (SpMatrix 3 1 [(2, 0, q 1)])
              FEATURE_TYPE_SEQUENCE "bow" TEXT) as (_ & _ & _ & Hne).
  split.
  - destruct (Heq eq_refl) as (-> & _). reflexivity.
  - apply Hne. simpl. lia.
Defined.

(** *** Grouping of three dense tensors *)

(** C7.  For three dense tensors with the same row count the two
    groupings return the same tensor, the concatenation of the three; if
    the row counts are not all equal, both groupings raise the
    [ValueError] on the sequence dimension. *)
Theorem C7_dense_combination_grouping (a b c : ndarray) :
  (nd_len a = nd_len b → nd_len b = nd_len c →
     combine_dense_left a b c = Ok (np_concatenate (np_concatenate a b) c)
     ∧ combine_dense_right a b c = combine_dense_left a b c)
  ∧ (¬ (nd_len a = nd_len b ∧ nd_len b = nd_len c) →
     ∃ n m n' m',
       combine_dense_left a b c
         = Raise (ValueError (DenseSequenceDimensionMismatch n m))
       ∧ combine_dense_right a b c
         = Raise (ValueError (DenseSequenceDimensionMismatch n' m'))).
Proof.
  unfold combine_dense_left, combine_dense_right. split.
  - intros Hab Hbc.
    rewrite (_combine_dense_features_eq a b Hab),
            (_combine_dense_features_eq b c Hbc); simpl.
    rewrite !_combine_dense_features_eq.
    + by rewrite np_concatenate_assoc.
    + rewrite np_concatenate_len by done. congruence.
    + rewrite np_concatenate_len by done. congruence.
  - intros Hne.
    destruct (decide (nd_len a = nd_len b)) as [Hab|Hab].
    + assert (Hbc : nd_len b ≠ nd_len c) by tauto.
      rewrite (_combine_dense_features_eq a b Hab),
              (_combine_dense_features_ne b c Hbc); simpl.
      rewrite _combine_dense_features_ne
        by (rewrite np_concatenate_len by done; congruence).
      eauto 10.
    + rewrite (_combine_dense_features_ne a b Hab); simpl.
      destruct (decide (nd_len b = nd_len c)) as [Hbc|Hbc].
      * rewrite (_combine_dense_features_eq b c Hbc); simpl.
        rewrite _combine_dense_features_ne
          by (rewrite np_concatenate_len by done; congruence).
        eauto 10.
      * rewrite (_combine_dense_features_ne b c Hbc); simpl. eauto 10.
Qed.

Lemma C7_dense_combination_grouping_witness :
  combine_dense_right (NdArray 1 [[q 1]]) (NdArray 1 [[q 2]]) (NdArray 2 [[q 3; q 4]])
  = combine_dense_left (NdArray 1 [[q 1]]) (NdArray 1 [[q 2]]) (NdArray 2 [[q 3; q 4]])
  ∧ ∃ n m, combine_dense_left (NdArray 1 [[q 1]]) (NdArray 1 [[q 2]; [q 5]])
                              (NdArray 2 [[q 3; q 4]])
           = Raise (ValueError (DenseSequenceDimensionMismatch n m)).
Proof.
  split.
  - destruct (C7_dense_combination_grouping
                (NdArray 1 [[q 1]]) (NdArray 1 [[q 2]]) (NdArray 2 [[q 3; q 4]]))
      as [Heq _].
    destruct (Heq eq_refl eq_refl) as [_ ->]. reflexivity.
  - destruct (C7_dense_combination_grouping
                (NdArray 1 [[q 1]]) (NdArray 1 [[q 2]; [q 5]]) (NdArray 2 [[q 3; q 4]]))
      as [_ Hne].
    destruct Hne as (n & m & _ & _ & Hl & _).
    + simpl. intros [H _]. discriminate H.
    + exists n, m. exact Hl.
Defined.

(** ** Pooling *)

Example pool_try_mean :
  _calculate_cls_vector (NdArray 2 [[q 1; q 2]; [q 0; q 0]; [q 3; q 4]]) MEAN_POOLING
  = Ok (NdArray 2 [[q 2; q 3]]).
Proof. qc_eval. Qed.

Example pool_try_max :
  _calculate_cls_vector (NdArray 2 [[q 1; q 2]; [q 0; q 0]; [q 3; q 4]]) MAX_POOLING
  = Ok (NdArray 2 [[q 3; q 4]]).
Proof. qc_eval. Qed.

Example pool_try_zero :
  _calculate_cls_vector (NdArray 5 [replicate 5 (q 0); replicate 5 (q 0)]) "median"
  = Ok (NdArray 5 [replicate 5 (q 0)]).
Proof. qc_eval. Qed.

Lemma row_any_nonempty (f : list Qc) : row_any f → f ≠ [].
Proof. by destruct f. Qed.

Lemma non_zero_size (rows : list (list Qc)) :
  nd_size (np_array (filter (λ f, row_any f) rows)) = 0
  ↔ filter (λ f, row_any f) rows = [].
Proof.
  split; [|by intros ->].
  destruct (filter _ rows) as [|r nz] eqn:Hnz; [done|].
  assert (Hr : row_any r).
  { assert (r ∈ filter (λ f, row_any f) rows) as Hin by (rewrite Hnz; left).
    by apply list_elem_of_filter in Hin as [? _]. }
  apply row_any_nonempty in Hr.
  unfold nd_size, nd_len; simpl. destruct r; [done | simpl; lia].
Qed.

Lemma foldl_zip_with_length (op : Qc → Qc → Qc) (rs : list (list Qc))
    (acc : list Qc) (w : nat) :
  length acc = w → Forall (λ r, length r = w) rs →
  length (foldl (zip_with op) acc rs) = w.
Proof.
  revert acc. induction rs as [|r rs IH]; intros acc Hacc Hrs; simpl; [done|].
  inversion Hrs; subst. apply IH; [|done].
  rewrite length_zip_with. lia.
Qed.

Lemma foldl_zip_with_nth (op : Qc → Qc → Qc) (rs : list (list Qc))
    (acc : list Qc) (w j : nat) :
  length acc = w → Forall (λ r, length r = w) rs → j < w →
  nth j (foldl (zip_with op) acc rs) 0%Qc
  = foldl op (nth j acc 0%Qc) (column j rs).
Proof.
  revert acc. induction rs as [|r rs IH]; intros acc Hacc Hrs Hj; simpl; [done|].
  inversion Hrs as [|? ? Hr Hrs']; subst.
  rewrite IH; [|rewrite length_zip_with; lia|done|done].
  f_equal. rewrite !nth_lookup, lookup_zip_with.
  destruct (lookup_lt_is_Some_2 acc j) as [x Hx]; [lia|].
  destruct (lookup_lt_is_Some_2 r j) as [y Hy]; [lia|].
  by rewrite Hx, Hy.
Qed.

Lemma foldl_Qcplus (x : Qc) (l : list Qc) :
  foldl Qcplus x l = (x + Qc_sum l)%Qc.
Proof.
  revert x. induction l as [|y l IH]; intros x; simpl.
  - by rewrite Qcplus_0_r.
  - rewrite IH. unfold Qc_sum. by rewrite Qcplus_assoc.
Qed.

Lemma Qc_max_l (x y : Qc) : (x ≤ Qc_max x y)%Qc.
Proof. unfold Qc_max. case_decide; [done | apply Qcle_refl]. Qed.

Lemma Qc_max_r (x y : Qc) : (y ≤ Qc_max x y)%Qc.
Proof.
  unfold Qc_max. case_decide; [apply Qcle_refl|].
  by apply Qclt_le_weak, Qcnot_le_lt.
Qed.

Lemma Qc_max_cases (x y : Qc) : Qc_max x y = x ∨ Qc_max x y = y.
Proof. unfold Qc_max. case_decide; auto. Qed.

Lemma foldl_Qc_max (x : Qc) (l : list Qc) :
  is_maximum (foldl Qc_max x l) (x :: l).
Proof.
  revert x. induction l as [|y l IH]; intros x; simpl.
  - split; [left | repeat constructor; apply Qcle_refl].
  - destruct (IH (Qc_max x y)) as [Hin Hall]. split.
    + apply elem_of_cons in Hin as [->|Hin].
      * destruct (Qc_max_cases x y) as [-> | ->]; [left | right; left].
      * by do 2 right.
    + inversion Hall as [|? ? Hxy Hl]; subst.
      repeat constructor; [| |done].
      * eapply Qcle_trans; [apply Qc_max_l | exact Hxy].
      * eapply Qcle_trans; [apply Qc_max_r | exact Hxy].
Qed.

Lemma non_zero_rows_wf (a : ndarray) :
  nd_wf a → Forall (λ r, length r = nd_cols a) (non_zero_rows a).
Proof.
  unfold nd_wf, non_zero_rows. intros Hwf.
  apply Forall_forall. intros r Hr.
  apply list_elem_of_filter in Hr as [_ Hr].
  by eapply Forall_forall in Hwf.
Qed.

Lemma np_array_cols (rows : list (list Qc)) (w : nat) :
  rows ≠ [] → Forall (λ r, length r = w) rows → nd_cols (np_array rows) = w.
Proof. destruct rows; [done|]. intros _ H. by inversion H. Qed.

(** Pooling sees its input only through the non-zero rows and the
    width. *)
Lemma _calculate_cls_vector_non_zero (a a' : ndarray) (p : string) :
  nd_cols a' = nd_cols a → non_zero_rows a' = non_zero_rows a →
  _calculate_cls_vector a' p = _calculate_cls_vector a p.
Proof.
  unfold _calculate_cls_vector, non_zero_rows. by intros -> ->.
Qed.

Lemma _calculate_cls_vector_zero (a : ndarray) (p : string) :
  non_zero_rows a = [] →
  _calculate_cls_vector a p = Ok (np_zeros 1 (nd_cols a)).
Proof.
  unfold _calculate_cls_vector, non_zero_rows. by intros ->.
Qed.

Lemma _calculate_cls_vector_nonzero (a : ndarray) (p : string) :
  non_zero_rows a ≠ [] →
  _calculate_cls_vector a p
  = if bool_decide (p = MEAN_POOLING) then Ok (np_mean_axis0 (np_array (non_zero_rows a)))
    else if bool_decide (p = MAX_POOLING) then Ok (np_max_axis0 (np_array (non_zero_rows a)))
    else Raise (ValueError (InvalidPoolingOperation p)).
Proof.
  intros Hnz. unfold _calculate_cls_vector.
  fold (non_zero_rows a).
  destruct (Nat.eqb_spec (nd_size (np_array (non_zero_rows a))) 0) as [H0|]; [|done].
  by apply non_zero_size in H0.
Qed.

Lemma row_any_false (r : list Qc) :
  row_any r = false ↔ Forall (λ x, x = 0%Qc) r.
Proof.
  unfold row_any. induction r as [|x r IH]; simpl.
  - split; [constructor | done].
  - rewrite orb_false_iff, IH, negb_false_iff, bool_decide_eq_true.
    split; [intros [? ?]; by constructor | by inversion 1].
Qed.

Lemma reduce_axis0_spec (op : Qc → Qc → Qc) (r : list Qc) (rs : list (list Qc))
    (w : nat) :
  Forall (λ r, length r = w) (r :: rs) →
  length (reduce_axis0 op (r :: rs)) = w
  ∧ ∀ j, j < w →
      nth j (reduce_axis0 op (r :: rs)) 0%Qc = foldl op (nth j r 0%Qc) (column j rs).
Proof.
  intros Hall. inversion Hall; subst. split; simpl.
  - by apply foldl_zip_with_length.
  - intros j Hj. by eapply foldl_zip_with_nth.
Qed.

(** *** Pooling in any element type *)

Lemma dtype_row_any_false {E} (dt : Dtype.dtype E) (r : list E) :
  Dtype.row_any dt r = false ↔ Forall (λ x, Dtype.dt_nonzero dt x = false) r.
Proof.
  unfold Dtype.row_any. induction r as [|x r IH]; simpl.
  - split; [constructor | done].
  - rewrite orb_false_iff, IH.
    split; [intros [? ?]; by constructor | by inversion 1].
Qed.

Lemma dtype_non_zero_size {E} (dt : Dtype.dtype E) (rows : list (list E)) :
  Dtype.size (Dtype.np_array (filter (λ f, Dtype.row_any dt f) rows)) = 0
  ↔ filter (λ f, Dtype.row_any dt f) rows = [].
Proof.
  split; [|by intros ->].
  destruct (filter _ rows) as [|r nz] eqn:Hnz; [done|].
  assert (Hr : Dtype.row_any dt r).
  { assert (r ∈ filter (λ f, Dtype.row_any dt f) rows) as Hin by (rewrite Hnz; left).
    by apply list_elem_of_filter in Hin as [? _]. }
  unfold Dtype.size, Dtype.len; simpl. destruct r; [done | simpl; lia].
Qed.

Lemma dtype_calculate_zero {E} (dt : Dtype.dtype E) (a : Dtype.array E) (p : string) :
  Dtype.non_zero_rows dt a = [] →
  Dtype._calculate_cls_vector dt a p = Ok (Dtype.np_zeros dt 1 (Dtype.cols a)).
Proof.
  unfold Dtype._calculate_cls_vector, Dtype.non_zero_rows. by intros ->.
Qed.

Lemma dtype_calculate_nonzero {E} (dt : Dtype.dtype E) (a : Dtype.array E)
    (p : string) :
  Dtype.non_zero_rows dt a ≠ [] →
  Dtype._calculate_cls_vector dt a p
  = if bool_decide (p = MEAN_POOLING)
    then Ok (Dtype.np_mean_axis0 dt (Dtype.np_array (Dtype.non_zero_rows dt a)))
    else if bool_decide (p = MAX_POOLING)
    then Ok (Dtype.np_max_axis0 dt (Dtype.np_array (Dtype.non_zero_rows dt a)))
    else Raise (ValueError (InvalidPoolingOperation p)).
Proof.
  intros Hnz. unfold Dtype._calculate_cls_vector.
  fold (Dtype.non_zero_rows dt a).
  destruct (Nat.eqb_spec
              (Dtype.size (Dtype.np_array (Dtype.non_zero_rows dt a))) 0) as [H0|];
    [|done].
  by apply dtype_non_zero_size in H0.
Qed.

Lemma dtype_non_zero_rows_cols {E} (dt : Dtype.dtype E) (a : Dtype.array E) :
  Dtype.wf a → Dtype.non_zero_rows dt a ≠ [] →
  Dtype.cols (Dtype.np_array (Dtype.non_zero_rows dt a)) = Dtype.cols a.
Proof.
  unfold Dtype.wf, Dtype.non_zero_rows. intros Hwf Hnz.
  destruct (filter _ (Dtype.rows a)) as [|r nz] eqn:Hf; [done|]. simpl.
  assert (r ∈ filter (λ f, Dtype.row_any dt f) (Dtype.rows a)) as Hin
    by (rewrite Hf; left).
  apply list_elem_of_filter in Hin as [_ Hin].
  by eapply Forall_forall in Hwf.
Qed.

Lemma nth_map_seq {A} (f : nat → A) (w j : nat) (d : A) :
  j < w → nth j (map f (seq 0 w)) d = f j.
Proof.
  intros Hj. rewrite nth_lookup, list_lookup_fmap.
  by rewrite lookup_seq_lt.
Qed.

(** Pooling, for any element type: the rows without a non-zero entry are
    discarded; the rows that remain alone decide the result; MEAN and MAX
    return one row as wide as the input, whose entry in each column is
    the sum of that column divided by the number of rows, and the maximum
    of that column, as the element type computes them; with no row left
    the result is one row of zeros. *)
Lemma dtype_pooling {E} (dt : Dtype.dtype E) (features : Dtype.array E) :
  Dtype.wf features →
  (∀ r, r ∈ Dtype.non_zero_rows dt features
        ↔ r ∈ Dtype.rows features
          ∧ ¬ Forall (λ x, Dtype.dt_nonzero dt x = false) r)
  ∧ (∀ features' p,
       Dtype.cols features' = Dtype.cols features →
       Dtype.non_zero_rows dt features' = Dtype.non_zero_rows dt features →
       Dtype._calculate_cls_vector dt features' p
       = Dtype._calculate_cls_vector dt features p)
  ∧ (Dtype.non_zero_rows dt features ≠ [] →
       ∃ m, Dtype._calculate_cls_vector dt features MEAN_POOLING
            = Ok (Dtype.Array (Dtype.cols features) [m])
            ∧ length m = Dtype.cols features
            ∧ ∀ j, j < Dtype.cols features →
                nth j m (Dtype.dt_zero dt)
                = Dtype.dt_divide dt
                    (Dtype.dt_sum dt
                       (Dtype.column dt j (Dtype.non_zero_rows dt features)))
                    (length (Dtype.non_zero_rows dt features)))
  ∧ (Dtype.non_zero_rows dt features ≠ [] →
       ∃ m, Dtype._calculate_cls_vector dt features MAX_POOLING
            = Ok (Dtype.Array (Dtype.cols features) [m])
            ∧ length m = Dtype.cols features
            ∧ ∀ j, j < Dtype.cols features →
                nth j m (Dtype.dt_zero dt)
                = Dtype.dt_maximum dt
                    (Dtype.column dt j (Dtype.non_zero_rows dt features)))
  ∧ (Dtype.non_zero_rows dt features = [] →
       ∀ p, Dtype._calculate_cls_vector dt features p
            = Ok (Dtype.Array (Dtype.cols features)
                    [replicate (Dtype.cols features) (Dtype.dt_zero dt)])).
Proof.
  intros Hwf. split; [|split; [|split; [|split]]].
  - intros r. unfold Dtype.non_zero_rows. rewrite list_elem_of_filter.
    rewrite <- dtype_row_any_false.
    destruct (Dtype.row_any dt r); simpl; split; intros [? ?]; split; done.
  - intros features' p Hcols Hnz.
    unfold Dtype._calculate_cls_vector.
    fold (Dtype.non_zero_rows dt features') (Dtype.non_zero_rows dt features).
    by rewrite Hcols, Hnz.
  - intros Hnz. rewrite dtype_calculate_nonzero by done. simpl.
    unfold Dtype.np_mean_axis0.
    rewrite dtype_non_zero_rows_cols by done.
    eexists. split; [reflexivity|]. split.
    + by rewrite length_map, length_seq.
    + intros j Hj. by rewrite nth_map_seq.
  - intros Hnz. rewrite dtype_calculate_nonzero by done. simpl.
    unfold Dtype.np_max_axis0.
    rewrite dtype_non_zero_rows_cols by done.
    eexists. split; [reflexivity|]. split.
    + by rewrite length_map, length_seq.
    + intros j Hj. by rewrite nth_map_seq.
  - intros Hnz p. by rewrite dtype_calculate_zero.
Qed.

Lemma exact_maximum (l : list Qc) :
  l ≠ [] → is_maximum (Dtype.dt_maximum Dtype.exact l) l.
Proof. destruct l as [|x l]; [done|]. intros _. apply foldl_Qc_max. Qed.

(** C5, as stated, fails on binary64 arrays.  Pooling the two equal rows
    of [[1.7e308], [1.7e308]] under MEAN gives infinity, not their common
    value; and [[1e16], [1], [-1e16]] pools to 0 while the same three rows
    in the order [[1e16], [-1e16], [1]] pool to 0.333..., although a
    column-wise arithmetic mean is the same for both. *)
Lemma C5_counterexample :
  Dtype._calculate_cls_vector Dtype.binary64
    (Dtype.Array 1 [[float_1_7e308]; [float_1_7e308]]) MEAN_POOLING
  = Ok (Dtype.Array 1 [[infinity]])
  ∧ PrimFloat.is_finite float_1_7e308 = true
  ∧ infinity ≠ float_1_7e308
  ∧ Dtype._calculate_cls_vector Dtype.binary64
      (Dtype.Array 1 [[1e16%float]; [1%float]; [(-1e16)%float]]) MEAN_POOLING
    = Ok (Dtype.Array 1 [[0%float]])
  ∧ Dtype._calculate_cls_vector Dtype.binary64
      (Dtype.Array 1 [[1e16%float]; [(-1e16)%float]; [1%float]]) MEAN_POOLING
    = Ok (Dtype.Array 1 [[0x1.5555555555555p-2%float]])
  ∧ 0%float ≠ 0x1.5555555555555p-2%float.
Proof.
  repeat apply conj; try (vm_compute; reflexivity).
  - intros H. apply (f_equal PrimFloat.is_finite) in H.
    vm_compute in H. discriminate H.
  - intros H. apply (f_equal PrimFloat.is_zero) in H.
    vm_compute in H. discriminate H.
Qed.

(** C5, amended.  For a rectangular matrix of token vectors of any
    element type: pooling discards the rows without a non-zero entry, and
    the remaining rows and the width alone decide the result; with a row
    left, MEAN returns one row as wide as the input whose entry in each
    column is the sum of that column over the non-zero rows divided by
    their number, and MAX one row of the column maxima, both as the
    element type computes them; with no row left, pooling returns one row
    of zeros as wide as the input, under any policy value.  In exact
    arithmetic the MEAN entries are the column-wise arithmetic means and
    the MAX entries the column-wise maxima of the non-zero rows.  On
    [[1,2],[0,0],[3,4]] MEAN gives [[2,3]] and MAX gives [[3,4]], in
    exact arithmetic and in binary64; an all-zero matrix of width 5 gives
    one zero row of width 5. *)
Theorem C5_pooling (E : Type) (dt : Dtype.dtype E) (features : Dtype.array E)
    (a : Dtype.array Qc) (Hwf : Dtype.wf features) (Hwf_a : Dtype.wf a) :
  (∀ r, r ∈ Dtype.non_zero_rows dt features
        ↔ r ∈ Dtype.rows features
          ∧ ¬ Forall (λ x, Dtype.dt_nonzero dt x = false) r)
  ∧ (∀ features' p,
       Dtype.cols features' = Dtype.cols features →
       Dtype.non_zero_rows dt features' = Dtype.non_zero_rows dt features →
       Dtype._calculate_cls_vector dt features' p
       = Dtype._calculate_cls_vector dt features p)
  ∧ (Dtype.non_zero_rows dt features ≠ [] →
       ∃ m, Dtype._calculate_cls_vector dt features MEAN_POOLING
            = Ok (Dtype.Array (Dtype.cols features) [m])
            ∧ length m = Dtype.cols features
            ∧ ∀ j, j < Dtype.cols features →
                nth j m (Dtype.dt_zero dt)
                = Dtype.dt_divide dt
                    (Dtype.dt_sum dt
                       (Dtype.column dt j (Dtype.non_zero_rows dt features)))
                    (length (Dtype.non_zero_rows dt features)))
  ∧ (Dtype.non_zero_rows dt features ≠ [] →
       ∃ m, Dtype._calculate_cls_vector dt features MAX_POOLING
            = Ok (Dtype.Array (Dtype.cols features) [m])
            ∧ length m = Dtype.cols features
            ∧ ∀ j, j < Dtype.cols features →
                nth j m (Dtype.dt_zero dt)
                = Dtype.dt_maximum dt
                    (Dtype.column dt j (Dtype.non_zero_rows dt features)))
  ∧ (Dtype.non_zero_rows dt features = [] →
       ∀ p, Dtype._calculate_cls_vector dt features p
            = Ok (Dtype.Array (Dtype.cols features)
                    [replicate (Dtype.cols features) (Dtype.dt_zero dt)]))
  ∧ (∀ r, r ∈ Dtype.non_zero_rows Dtype.exact a
          ↔ r ∈ Dtype.rows a ∧ ¬ Forall (λ x, x = 0%Qc) r)
  ∧ (Dtype.non_zero_rows Dtype.exact a ≠ [] →
       ∃ m, Dtype._calculate_cls_vector Dtype.exact a MEAN_POOLING
            = Ok (Dtype.Array (Dtype.cols a) [m])
            ∧ length m = Dtype.cols a
            ∧ ∀ j, j < Dtype.cols a →
                nth j m 0%Qc
                = arithmetic_mean (column j (Dtype.non_zero_rows Dtype.exact a)))
  ∧ (Dtype.non_zero_rows Dtype.exact a ≠ [] →
       ∃ m, Dtype._calculate_cls_vector Dtype.exact a MAX_POOLING
            = Ok (Dtype.Array (Dtype.cols a) [m])
            ∧ length m = Dtype.cols a
            ∧ ∀ j, j < Dtype.cols a →
                is_maximum (nth j m 0%Qc)
                           (column j (Dtype.non_zero_rows Dtype.exact a)))
  ∧ Dtype._calculate_cls_vector Dtype.exact
      (Dtype.Array 2 [[q 1; q 2]; [q 0; q 0]; [q 3; q 4]]) MEAN_POOLING
    = Ok (Dtype.Array 2 [[q 2; q 3]])
  ∧ Dtype._calculate_cls_vector Dtype.exact
      (Dtype.Array 2 [[q 1; q 2]; [q 0; q 0]; [q 3; q 4]]) MAX_POOLING
    = Ok (Dtype.Array 2 [[q 3; q 4]])
  ∧ Dtype._calculate_cls_vector Dtype.binary64
      (Dtype.Array 2 [[1%float; 2%float]; [0%float; 0%float]; [3%float; 4%float]])
      MEAN_POOLING
    = Ok (Dtype.Array 2 [[2%float; 3%float]])
  ∧ Dtype._calculate_cls_vector Dtype.binary64
      (Dtype.Array 2 [[1%float; 2%float]; [0%float; 0%float]; [3%float; 4%float]])
      MAX_POOLING
    = Ok (Dtype.Array 2 [[3%float; 4%float]])
  ∧ (∀ p, Dtype._calculate_cls_vector Dtype.exact
            (Dtype.Array 5 [replicate 5 (q 0); replicate 5 (q 0)]) p
          = Ok (Dtype.Array 5 [replicate 5 (q 0)]))
  ∧ (∀ p, Dtype._calculate_cls_vector Dtype.binary64
            (Dtype.Array 5 [replicate 5 0%float; replicate 5 0%float]) p
          = Ok (Dtype.Array 5 [replicate 5 0%float])).
Proof.
  destruct (dtype_pooling dt features Hwf) as (H1 & H2 & H3 & H4 & H5).
  destruct (dtype_pooling Dtype.exact a Hwf_a) as (E1 & _ & E3 & E4 & _).
  do 5 (split; [assumption|]).
  split; [|split; [|split]].
  - intros r. rewrite E1.
    assert (Forall (λ x, Dtype.dt_nonzero Dtype.exact x = false) r
            ↔ Forall (λ x, x = 0%Qc) r) as ->; [|done].
    apply Forall_proper; [|done]. intros x; simpl.
    by rewrite negb_false_iff, bool_decide_eq_true.
  - intros Hnz. destruct (E3 Hnz) as (m & Hm & Hlen & Hnth).
    exists m. split; [done|]. split; [done|].
    intros j Hj. unfold arithmetic_mean, column. rewrite length_map.
    exact (Hnth j Hj).
  - intros Hnz. destruct (E4 Hnz) as (m & Hm & Hlen & Hnth).
    exists m. split; [done|]. split; [done|].
    intros j Hj.
    assert (nth j m 0%Qc
            = Dtype.dt_maximum Dtype.exact
                (column j (Dtype.non_zero_rows Dtype.exact a))) as ->
      by exact (Hnth j Hj).
    apply exact_maximum. unfold column.
    by destruct (Dtype.non_zero_rows Dtype.exact a).
  - repeat apply conj.
    + qc_eval.
    + qc_eval.
    + vm_compute. reflexivity.
    + vm_compute. reflexivity.
    + intros p. by rewrite dtype_calculate_zero.
    + intros p. by rewrite dtype_calculate_zero.
Qed.

Lemma C5_pooling_witness :
  ∃ m, Dtype._calculate_cls_vector Dtype.binary64
         (Dtype.Array 1 [[1e16%float]; [0%float]; [1%float]; [(-1e16)%float]])
         MEAN_POOLING
       = Ok (Dtype.Array 1 [m])
       ∧ length m = 1.
Proof.
  destruct (C5_pooling float Dtype.binary64
              (Dtype.Array 1 [[1e16%float]; [0%float]; [1%float]; [(-1e16)%float]])
              (Dtype.Array 2 [[q 1; q 2]; [q 0; q 0]; [q 3; q 4]]))
    as (_ & _ & Hmean & _).
  - unfold Dtype.wf; simpl. repeat constructor.
  - unfold Dtype.wf; simpl. repeat constructor.
  - destruct Hmean as (m & Hm & Hlen & _).
    + vm_compute. discriminate.
    + exists m. split; [exact Hm | exact Hlen].
Defined.

(** On a rectangular matrix the function [_calculate_cls_vector] of the
    exact entries is pooling at the exact element type. *)
Lemma _calculate_cls_vector_exact (a : ndarray) (p : string) :
  nd_wf a →
  _calculate_cls_vector a p
  = match Dtype._calculate_cls_vector Dtype.exact (Dtype.of_ndarray a) p with
    | Ok pooled => Ok (Dtype.to_ndarray pooled)
    | Raise e => Raise e
    end.
Proof.
  intros Hwf. pose proof (non_zero_rows_wf a Hwf) as Hnzwf.
  assert (Hsame : Dtype.non_zero_rows Dtype.exact (Dtype.of_ndarray a)
                  = non_zero_rows a) by done.
  destruct (decide (non_zero_rows a = [])) as [Hnz|Hnz].
  - rewrite _calculate_cls_vector_zero by done.
    by rewrite dtype_calculate_zero by by rewrite Hsame.
  - rewrite _calculate_cls_vector_nonzero by done.
    rewrite dtype_calculate_nonzero by by rewrite Hsame.
    rewrite Hsame.
    pose proof (np_array_cols _ (nd_cols a) Hnz Hnzwf) as Hcols.
    assert (Hcols' : Dtype.cols (Dtype.np_array (non_zero_rows a)) = nd_cols a)
      by (by destruct (non_zero_rows a)).
    destruct (non_zero_rows a) as [|r rs] eqn:Hrows; [done|].
    repeat case_bool_decide; [| |done].
    + unfold np_mean_axis0, Dtype.np_mean_axis0, Dtype.to_ndarray.
      rewrite Hcols, Hcols'.
      change (nd_rows (np_array (r :: rs))) with (r :: rs).
      change (nd_len (np_array (r :: rs))) with (S (length rs)).
      change (Dtype.rows (Dtype.np_array (r :: rs))) with (r :: rs).
      change (Dtype.len (Dtype.np_array (r :: rs))) with (S (length rs)).
      cbn [Dtype.cols Dtype.rows].
      do 3 f_equal.
      destruct (reduce_axis0_spec Qcplus r rs (nd_cols a) Hnzwf) as [Hlen Hnth].
      apply (nth_ext _ _ 0%Qc 0%Qc).
      * by rewrite !length_map, length_seq.
      * intros j Hj. rewrite length_map in Hj.
        assert (Hjw : j < nd_cols a) by lia.
        rewrite (nth_map_seq _ _ _ _ Hjw).
        rewrite nth_lookup, list_lookup_fmap.
        destruct (lookup_lt_is_Some_2 (reduce_axis0 Qcplus (r :: rs)) j) as [x Hx];
          [lia|].
        rewrite Hx; simpl.
        specialize (Hnth j Hjw). rewrite nth_lookup, Hx in Hnth. simpl in Hnth.
        by rewrite Hnth, foldl_Qcplus.
    + unfold np_max_axis0, Dtype.np_max_axis0, Dtype.to_ndarray.
      rewrite Hcols, Hcols'.
      change (nd_rows (np_array (r :: rs))) with (r :: rs).
      change (Dtype.rows (Dtype.np_array (r :: rs))) with (r :: rs).
      cbn [Dtype.cols Dtype.rows].
      do 3 f_equal.
      destruct (reduce_axis0_spec Qc_max r rs (nd_cols a) Hnzwf) as [Hlen Hnth].
      apply (nth_ext _ _ 0%Qc 0%Qc).
      * by rewrite length_map, length_seq.
      * intros j Hj. rewrite Hlen in Hj.
        rewrite (nth_map_seq _ _ _ _ Hj). by rewrite (Hnth j Hj).
Qed.

(** ** The export view *)

Lemma is_not_None_true (v : pyval) : is_not_None v = true ↔ v ≠ PyNone.
Proof. destruct v; simpl; split; done. Qed.

Lemma as_dict_lookup (self : Message) (only_output_properties : bool)
    (key : string) (value : pyval) :
  key ≠ "text" →
  as_dict self only_output_properties !! key = Some value
  ↔ data self !! key = Some value
    ∧ value ≠ PyNone
    ∧ (only_output_properties = true → key ∈ output_properties self).
Proof.
  intros Hkey. unfold as_dict.
  rewrite lookup_insert_ne by done.
  rewrite map_lookup_filter_Some; simpl. rewrite is_not_None_true.
  destruct only_output_properties.
  - rewrite map_lookup_filter_Some; simpl.
    split; [intros [[? ?] ?] | intros (? & ? & ?)]; auto.
  - split; [intros [? ?] | intros (? & ? & _)]; repeat split; auto.
    discriminate.
Qed.

(** C9.  The export view holds the raw text under the key 'text',
    whatever the flag; any other key is exported with a value exactly
    when the data holds that value for it, the value is not [None] and,
    under the restriction flag, the key is one of the message's
    [output_properties]; and the view is the same whatever feature
    records the message stores, so no stored tensor reaches it. *)
Theorem C9_export_view (self : Message) (only_output_properties : bool) :
  as_dict self only_output_properties !! "text" = Some (PyStr (text self))
  ∧ (∀ key value, key ≠ "text" →
       (as_dict self only_output_properties !! key = Some value
        ↔ data self !! key = Some value
          ∧ value ≠ PyNone
          ∧ (only_output_properties = true → key ∈ output_properties self)))
  ∧ (∀ key, key ≠ "text" → data self !! key = Some PyNone →
       as_dict self only_output_properties !! key = None)
  ∧ (∀ key, key ≠ "text" → key ∉ output_properties self →
       as_dict self true !! key = None)
  ∧ (∀ fs, as_dict (mkMessage (text self) (time self) (data self) fs
                              (output_properties self)) only_output_properties
           = as_dict self only_output_properties).
Proof.
  repeat apply conj.
  - unfold as_dict. by rewrite lookup_insert_eq.
  - intros key value. apply as_dict_lookup.
  - intros key Hkey Hnone.
    destruct (as_dict self only_output_properties !! key) as [v|] eqn:Hv; [|done].
    apply as_dict_lookup in Hv as (Hd & Hne & _); [|done]. congruence.
  - intros key Hkey Hout.
    destruct (as_dict self true !! key) as [v|] eqn:Hv; [|done].
    apply as_dict_lookup in Hv as (_ & _ & Hin); [|done]. by destruct Hout; auto.
  - done.
Qed.

(** ** Retrieval *)

Lemma select_features_unbound (name : string) (featurizers sentence_featurizers : list string)
    (fs : list Features) :
  fs ≠ [] →
  select_features None name featurizers sentence_featurizers fs
  = Raise (AttributeError "Features" name).
Proof. by destruct fs. Qed.

(** With the name bound, the comprehension keeps, in order, the records of
    that granularity whose origin is in [featurizers], or all records of
    that granularity when [sentence_featurizers] is empty. *)
Lemma select_features_bound (granularity name : string)
    (featurizers sentence_featurizers : list string) (fs : list Features) :
  select_features (Some granularity) name featurizers sentence_featurizers fs
  = Ok (filter (λ f, type f = granularity
                     ∧ (origin f ∈ featurizers ∨ sentence_featurizers = [])) fs).
Proof.
  induction fs as [|f fs IH]; [done|].
  rewrite filter_cons.
  cbn [select_features class_attr]. rewrite IH.
  unfold mbind, result_bind. f_equal.
  unfold py_in, py_not.
  destruct (decide (type f = granularity)) as [Hty|Hty].
  - rewrite (bool_decide_eq_true_2 _ Hty); simpl.
    destruct (decide (origin f ∈ featurizers)) as [Hin|Hin].
    + rewrite (bool_decide_eq_true_2 _ Hin); simpl.
      rewrite decide_True; [done | auto].
    + rewrite (bool_decide_eq_false_2 _ Hin); simpl.
      destruct sentence_featurizers.
      * rewrite decide_True; [done | auto].
      * rewrite decide_False; [done | intros [_ [?|?]]; done].
  - rewrite (bool_decide_eq_false_2 _ Hty); simpl.
    rewrite decide_False; [done | by intros [? _]].
Qed.

Lemma get_features_from_unbound (fs : list Features)
    (sequence_featurizers sentence_featurizers : list string) :
  get_features_from Features_class fs sequence_featurizers sentence_featurizers
  = if py_not fs then Ok (PyNone, PyNone)
    else Raise (AttributeError "Features" "SEQUENCE").
Proof.
  unfold get_features_from. destruct fs as [|f fs]; [done|]. reflexivity.
Qed.

(** C1.  On [message_a] the claim puts the record of origin "a" in the
    SEQUENCE group when the sequence allow-list is empty, and keeps it out
    when the sequence allow-list is ["b"].  The methods as they run raise
    [AttributeError] instead, because [Features] has no attribute
    [SEQUENCE]; and with the names bound, the sequence filter tests the
    sentence allow-list for emptiness: the record is dropped for the
    allow-lists [] and ["b"], and kept for ["b"] and []. *)
Theorem C1_sequence_filter_at_failing_input :
  get_dense_features message_a TEXT [] ["b"]
    = Raise (AttributeError "Features" "SEQUENCE")
  ∧ get_sparse_features message_a TEXT [] ["b"]
    = Raise (AttributeError "Features" "SEQUENCE")
  ∧ get_dense_features_in Features_class_resolved message_a TEXT [] ["b"]
    = Ok (PyNone, PyNone)
  ∧ get_sparse_features_in Features_class_resolved message_a TEXT [] ["b"]
    = Ok (PyNone, PyNone)
  ∧ get_dense_features_in Features_class_resolved message_a TEXT ["b"] []
    = Ok (features dense_record_a, PyNone)
  ∧ get_sparse_features_in Features_class_resolved message_a TEXT ["b"] []
    = Ok (features sparse_record_a, PyNone).
Proof. repeat split. Qed.

(** C3.  The two retrieval methods as they run: when no stored record
    matches the attribute and the sparsity they return [(None, None)];
    when some record matches they raise [AttributeError] at
    [Features.SEQUENCE], before any record is selected or combined. *)
Theorem C3_retrieval_as_run (self : Message) (attribute : string)
    (sequence_featurizers sentence_featurizers : list string) :
  get_dense_features self attribute sequence_featurizers sentence_featurizers
    = (if py_not (matching_dense self attribute) then Ok (PyNone, PyNone)
       else Raise (AttributeError "Features" "SEQUENCE"))
  ∧ get_sparse_features self attribute sequence_featurizers sentence_featurizers
    = (if py_not (matching_sparse self attribute) then Ok (PyNone, PyNone)
       else Raise (AttributeError "Features" "SEQUENCE")).
Proof.
  split; apply get_features_from_unbound.
Qed.

Example retrieval_raises_on_message_a :
  get_dense_features message_a TEXT [] [] = Raise (AttributeError "Features" "SEQUENCE")
  ∧ get_sparse_features message_a TEXT [] [] = Raise (AttributeError "Features" "SEQUENCE")
  ∧ get_dense_features message_a "intent" [] [] = Ok (PyNone, PyNone).
Proof. repeat split. Qed.

(** With the names bound, retrieval selects the SEQUENCE records by the
    sequence allow-list unless the sentence allow-list is empty, selects
    the SENTENCE records by the sentence allow-list unless that list is
    empty, and folds each selection in stored order. *)
Lemma get_features_from_resolved (fs : list Features)
    (sequence_featurizers sentence_featurizers : list string) :
  get_features_from Features_class_resolved fs sequence_featurizers sentence_featurizers
  = let sequence_features :=
      filter (λ f, type f = FEATURE_TYPE_SEQUENCE
                   ∧ (origin f ∈ sequence_featurizers ∨ sentence_featurizers = [])) fs in
    let sentence_features :=
      filter (λ f, type f = FEATURE_TYPE_SENTENCE
                   ∧ (origin f ∈ sentence_featurizers ∨ sentence_featurizers = [])) fs in
    if py_not fs then Ok (PyNone, PyNone)
    else if py_not sequence_features && py_not sentence_features then Ok (PyNone, PyNone)
    else
      combined_sequence_features ←
        combine_loop Features_class_resolved PyNone sequence_features;
      combined_sentence_features ←
        combine_loop Features_class_resolved PyNone sentence_features;
      Ok (combined_sequence_features, combined_sentence_features).
Proof.
  unfold get_features_from. simpl ns_SEQUENCE. simpl ns_SENTENCE.
  rewrite !select_features_bound. by destruct fs.
Qed.

(** ** The spaCy adapter *)

Lemma rstrip_truthy (s : unicode) :
  unicode_truthy (rstrip s) = has_non_whitespace s.
Proof.
  induction s as [|c s IH]; [done|]. simpl.
  destruct (rstrip s); simpl in *; rewrite <- IH.
  - destruct (is_whitespace c); done.
  - by rewrite orb_true_r.
Qed.

Lemma lstrip_non_whitespace (s : unicode) :
  has_non_whitespace (lstrip s) = has_non_whitespace s.
Proof.
  induction s as [|c s IH]; [done|]. simpl.
  destruct (is_whitespace c) eqn:Hc; simpl.
  - exact IH.
  - by rewrite Hc.
Qed.

Lemma strip_truthy (s : unicode) :
  unicode_truthy s && unicode_truthy (strip s) = has_non_whitespace s.
Proof.
  unfold strip. rewrite rstrip_truthy, lstrip_non_whitespace.
  by destruct s.
Qed.

(** Blank is what [str.strip] empties: a no-break space, an ideographic
    space and an em space are blank, as are a space and a tab. *)
Example no_break_space_is_blank :
  _features_for_doc
    [Token "hi" [q 1; q 2]; Token [0xA0%N] [q 3; q 4];
     Token [0x3000%N; 0x2003%N] [q 5; q 6]; Token [0x20%N; 0x09%N] [q 7; q 8]]
  = NdArray 2 [[q 1; q 2]].
Proof. reflexivity. Qed.

Lemma _features_for_doc_rows (doc : list token) :
  nd_rows (_features_for_doc doc) = map tok_vector (non_blank_tokens doc)
  ∧ nd_len (_features_for_doc doc) = length (non_blank_tokens doc).
Proof.
  assert (H : nd_rows (_features_for_doc doc) = map tok_vector (non_blank_tokens doc)).
  { unfold _features_for_doc, non_blank_tokens; simpl. f_equal.
    apply list_filter_iff. intros t. by rewrite strip_truthy. }
  split; [done|]. unfold nd_len. by rewrite H, length_map.
Qed.

Lemma _calculate_cls_vector_one_row (a pooled : ndarray) (p : string) :
  _calculate_cls_vector a p = Ok pooled → nd_len pooled = 1.
Proof.
  unfold _calculate_cls_vector.
  repeat case_match; intros [= <-]; done.
Qed.

Lemma _calculate_cls_vector_valid (a : ndarray) (p : string) :
  p = MEAN_POOLING ∨ p = MAX_POOLING ∨ non_zero_rows a = [] →
  ∃ pooled, _calculate_cls_vector a p = Ok pooled.
Proof.
  intros Hp. destruct (decide (non_zero_rows a = [])) as [Hnz|Hnz].
  - rewrite _calculate_cls_vector_zero by done. eauto.
  - rewrite _calculate_cls_vector_nonzero by done.
    destruct Hp as [-> | [-> | ?]]; [| |done]; simpl; eauto.
Qed.

Lemma _calculate_cls_vector_invalid (a : ndarray) (p : string) (e : exn) :
  _calculate_cls_vector a p = Raise e
  ↔ e = ValueError (InvalidPoolingOperation p)
    ∧ p ≠ MEAN_POOLING ∧ p ≠ MAX_POOLING ∧ non_zero_rows a ≠ [].
Proof.
  destruct (decide (non_zero_rows a = [])) as [Hnz|Hnz].
  - rewrite _calculate_cls_vector_zero by done. split; [done | tauto].
  - rewrite _calculate_cls_vector_nonzero by done.
    repeat case_bool_decide; split; try done; try tauto.
    + intros [= <-]. done.
    + intros (-> & _). done.
Qed.

Section AdapterFacts.

Variable SPACY_DOCS : gmap string string.
Variables (self : SpacyFeaturizer) (message : Message) (attribute key : string).
Hypothesis Hdocs : SPACY_DOCS !! attribute = Some key.

Lemma _set_spacy_features_None :
  get message key PyNone = PyNone →
  _set_spacy_features SPACY_DOCS self attribute message = (Ok tt, message).
Proof.
  intros Hnone. unfold _set_spacy_features, get_doc, getitem.
  rewrite Hdocs. unfold mbind, M_bind, lift, read. by rewrite Hnone.
Qed.

Lemma _set_spacy_features_not_iterable (e : exn) :
  get message key PyNone ≠ PyNone →
  tokens_of (get message key PyNone) = Raise e →
  _set_spacy_features SPACY_DOCS self attribute message = (Raise e, message).
Proof.
  intros Hnone Hraise. unfold _set_spacy_features, get_doc, getitem.
  rewrite Hdocs. unfold mbind, M_bind, lift, read.
  destruct (get message key PyNone) eqn:Hget; try done; by rewrite Hraise.
Qed.

Lemma _set_spacy_features_tokens (doc : list token) :
  get message key PyNone ≠ PyNone →
  tokens_of (get message key PyNone) = Ok doc →
  _set_spacy_features SPACY_DOCS self attribute message
  = match _calculate_cls_vector (_features_for_doc doc) (pooling_operation self) with
    | Raise e => (Raise e, message)
    | Ok pooled =>
        match component_config self !! ALIAS with
        | None => (Raise (KeyError ALIAS), message)
        | Some alias =>
            (Ok tt, with_spacy_features message attribute alias
                      (_features_for_doc doc) pooled)
        end
    end.
Proof.
  intros Hnone Hdoc. unfold _set_spacy_features, get_doc, getitem.
  rewrite Hdocs. unfold mbind, M_bind, lift, read.
  destruct (get message key PyNone) eqn:Hget; [done|..];
    rewrite Hdoc;
    (destruct (_calculate_cls_vector _ _) as [pooled|e]; [|done]);
    (destruct (component_config self !! ALIAS) as [alias|]; [|done]);
    unfold Features_init, validate_type; simpl;
    unfold do_add_features, add_features, with_spacy_features; simpl;
    by rewrite <- (assoc_L app).
Qed.

Lemma _set_spacy_features_Doc (doc : list token) :
  get message key PyNone = PyDoc doc →
  _set_spacy_features SPACY_DOCS self attribute message
  = match _calculate_cls_vector (_features_for_doc doc) (pooling_operation self) with
    | Raise e => (Raise e, message)
    | Ok pooled =>
        match component_config self !! ALIAS with
        | None => (Raise (KeyError ALIAS), message)
        | Some alias =>
            (Ok tt, with_spacy_features message attribute alias
                      (_features_for_doc doc) pooled)
        end
    end.
Proof.
  intros Hdoc. apply _set_spacy_features_tokens; by rewrite Hdoc.
Qed.

End AdapterFacts.

(** C2, as stated, fails: the constructor accepts the pooling value
    "median", which is neither 'mean' nor 'max', and the adapter so built
    raises the invalid-pooling error while it processes a message. *)
Lemma C2_counterexample :
  SpacyFeaturizer_init Component_init_defaults (Some {[POOLING := "median"]})
    = Ok adapter_median
  ∧ "median" ≠ MEAN_POOLING ∧ "median" ≠ MAX_POOLING
  ∧ process example_SPACY_DOCS adapter_median message_with_doc
    = (Raise (ValueError (InvalidPoolingOperation "median")), message_with_doc).
Proof. repeat split; done. Qed.

(** C2, amended.  The constructor checks no pooling value: once the base
    initialiser has returned a configuration with a pooling entry,
    construction succeeds and stores the entry, whatever it is.  The
    invalid-pooling error belongs to processing: for an attribute with an
    entry in [SPACY_DOCS], on a message that carries a document for it,
    the adapter raises it exactly when its pooling value is neither 'mean'
    nor 'max' and some non-blank token has a non-zero vector, and the
    message is then left as it was.  A token is blank when its text is
    empty or made of Unicode whitespace only. *)
Theorem C2_pooling_checked_while_processing
    (Component_init :
       gmap string string → option (gmap string string) → result (gmap string string))
    (SPACY_DOCS : gmap string string)
    (supplied : option (gmap string string)) (config : gmap string string)
    (p : string) (message : Message) (attribute key : string) (doc : list token)
    (Hbase : Component_init defaults supplied = Ok config)
    (Hpooling : config !! POOLING = Some p)
    (Hdocs : SPACY_DOCS !! attribute = Some key)
    (Hdoc : get message key PyNone = PyDoc doc) :
  SpacyFeaturizer_init Component_init supplied = Ok (mkSpacyFeaturizer config p)
  ∧ ((_set_spacy_features SPACY_DOCS (mkSpacyFeaturizer config p) attribute message).1
       = Raise (ValueError (InvalidPoolingOperation p))
     ↔ p ≠ MEAN_POOLING ∧ p ≠ MAX_POOLING
       ∧ non_zero_rows (_features_for_doc doc) ≠ [])
  ∧ (∀ p', (_set_spacy_features SPACY_DOCS (mkSpacyFeaturizer config p) attribute message).1
             = Raise (ValueError (InvalidPoolingOperation p')) →
           p' = p
           ∧ (_set_spacy_features SPACY_DOCS (mkSpacyFeaturizer config p)
                                  attribute message).2 = message).
Proof.
  assert (Hraise : ∀ p',
    (_set_spacy_features SPACY_DOCS (mkSpacyFeaturizer config p) attribute message).1
      = Raise (ValueError (InvalidPoolingOperation p')) →
    _calculate_cls_vector (_features_for_doc doc) p
      = Raise (ValueError (InvalidPoolingOperation p'))).
  { intros p'. rewrite (_set_spacy_features_Doc _ _ _ _ _ Hdocs _ Hdoc). simpl.
    destruct (_calculate_cls_vector _ p) as [pooled|e]; simpl.
    - destruct (config !! ALIAS); simpl; discriminate.
    - by intros [= ->]. }
  split; [|split].
  - unfold SpacyFeaturizer_init, getitem. rewrite Hbase; simpl.
    by rewrite Hpooling.
  - split.
    + intros Hrun. apply Hraise, _calculate_cls_vector_invalid in Hrun. tauto.
    + intros Hinv.
      rewrite (_set_spacy_features_Doc _ _ _ _ _ Hdocs _ Hdoc). simpl.
      assert (_calculate_cls_vector (_features_for_doc doc) p
              = Raise (ValueError (InvalidPoolingOperation p))) as ->; [|done].
      apply _calculate_cls_vector_invalid. tauto.
  - intros p' Hrun. pose proof (Hraise p' Hrun) as Hcalc.
    apply _calculate_cls_vector_invalid in Hcalc as [[= ->] _].
    split; [done|].
    rewrite (_set_spacy_features_Doc _ _ _ _ _ Hdocs _ Hdoc). simpl.
    by rewrite (Hraise p Hrun).
Qed.

Lemma C2_pooling_checked_while_processing_witness :
  SpacyFeaturizer_init Component_init_defaults (Some {[POOLING := "median"]})
    = Ok (mkSpacyFeaturizer ({[POOLING := "median"]} ∪ defaults) "median").
Proof.
  refine (proj1 (C2_pooling_checked_while_processing
                   Component_init_defaults example_SPACY_DOCS
                   (Some {[POOLING := "median"]}) ({[POOLING := "median"]} ∪ defaults)
                   "median" message_with_doc TEXT "text_spacy_doc"
                   [Token "hi" [q 1; q 2]] _ _ _ _)); reflexivity.
Defined.

(** C8, as stated, fails: the message carries a document for its text,
    yet the adapter built with the pooling value "median" raises on it and
    appends no record. *)
Lemma C8_counterexample :
  get message_with_doc "text_spacy_doc" PyNone = PyDoc [Token "hi" [q 1; q 2]]
  ∧ example_SPACY_DOCS !! TEXT = Some "text_spacy_doc"
  ∧ SpacyFeaturizer_init Component_init_defaults (Some {[POOLING := "median"]})
    = Ok adapter_median
  ∧ _set_spacy_features example_SPACY_DOCS adapter_median TEXT message_with_doc
    = (Raise (ValueError (InvalidPoolingOperation "median")), message_with_doc)
  ∧ message_features message_with_doc = [].
Proof. repeat split; done. Qed.

(** C8, amended.  For an adapter whose configuration names its origin
    under [ALIAS], and an attribute with an entry in [SPACY_DOCS]: without
    a document for the attribute the adapter returns and leaves the
    message as it was; with a document, and a pooling value that is 'mean'
    or 'max' (or no non-zero token vector to pool), it pools the token
    matrix and appends exactly two records after the stored ones, the
    SEQUENCE record with one row per non-blank token, in token order, then
    the SENTENCE record with the one-row pooled vector, both with the
    attribute and the adapter's alias; text, data and the stored records
    stay as they were.  A token is non-blank when its text holds a
    character that is not Unicode whitespace. *)
Theorem C8_adapter_appends_two_records
    (SPACY_DOCS : gmap string string) (self : SpacyFeaturizer) (message : Message)
    (attribute key alias : string)
    (Hdocs : SPACY_DOCS !! attribute = Some key)
    (Halias : component_config self !! ALIAS = Some alias) :
  (get message key PyNone = PyNone →
     _set_spacy_features SPACY_DOCS self attribute message = (Ok tt, message))
  ∧ (∀ doc, get message key PyNone = PyDoc doc →
       pooling_operation self = MEAN_POOLING ∨ pooling_operation self = MAX_POOLING
       ∨ non_zero_rows (_features_for_doc doc) = [] →
       ∃ pooled,
         _calculate_cls_vector (_features_for_doc doc) (pooling_operation self)
           = Ok pooled
         ∧ nd_len pooled = 1
         ∧ nd_rows (_features_for_doc doc) = map tok_vector (non_blank_tokens doc)
         ∧ nd_len (_features_for_doc doc) = length (non_blank_tokens doc)
         ∧ _set_spacy_features SPACY_DOCS self attribute message
           = (Ok tt,
              mkMessage (text message) (time message) (data message)
                (message_features message
                 ++ [mkFeatures (PyNdarray (_features_for_doc doc))
                                FEATURE_TYPE_SEQUENCE alias attribute;
                     mkFeatures (PyNdarray pooled)
                                FEATURE_TYPE_SENTENCE alias attribute])
                (output_properties message))).
Proof.
  split.
  - by apply _set_spacy_features_None.
  - intros doc Hdoc Hvalid.
    destruct (_calculate_cls_vector_valid _ _ Hvalid) as [pooled Hpooled].
    exists pooled. repeat apply conj.
    + done.
    + by eapply _calculate_cls_vector_one_row.
    + apply _features_for_doc_rows.
    + apply _features_for_doc_rows.
    + rewrite (_set_spacy_features_Doc _ _ _ _ _ Hdocs _ Hdoc).
      by rewrite Hpooled, Halias.
Qed.

Lemma C8_adapter_appends_two_records_witness :
  ∃ pooled,
    _set_spacy_features example_SPACY_DOCS
      (mkSpacyFeaturizer defaults MEAN_POOLING) TEXT message_with_doc
    = (Ok tt,
       mkMessage "hi" None (data message_with_doc)
         [mkFeatures (PyNdarray (_features_for_doc [Token "hi" [q 1; q 2]]))
                     FEATURE_TYPE_SEQUENCE "spacy_featurizer" TEXT;
          mkFeatures (PyNdarray pooled) FEATURE_TYPE_SENTENCE "spacy_featurizer" TEXT]
         ∅).
Proof.
  destruct (C8_adapter_appends_two_records example_SPACY_DOCS
              (mkSpacyFeaturizer defaults MEAN_POOLING) message_with_doc
              TEXT "text_spacy_doc" "spacy_featurizer" eq_refl eq_refl)
    as [_ Hdoc].
  destruct (Hdoc [Token "hi" [q 1; q 2]] eq_refl (or_introl eq_refl))
    as (pooled & _ & _ & _ & _ & Hrun).
  exists pooled. exact Hrun.
Defined.

(** * Further properties *)

(** ** [Features] *)

(** X1.  [Features.__init__] raises exactly for the type tags other than
    'sequence' and 'sentence'; the error is the [ValueError] that names
    the tag, and the tensor, attribute and origin play no part. *)
Theorem X1_Features_init_rejects_other_types (x : pyval) (ty a o : string) :
  (Features_init x ty a o = Raise (ValueError (InvalidFeatureType ty))
   ↔ ty ≠ "sequence" ∧ ty ≠ "sentence")
  ∧ (∀ e, Features_init x ty a o = Raise e → e = ValueError (InvalidFeatureType ty))
  ∧ (∀ x' a' o', is_ok (Features_init x' ty a' o') = is_ok (Features_init x ty a o)).
Proof.
  assert (Hin : ty ∈ VALID_FEATURE_TYPES ↔ ty = "sequence" ∨ ty = "sentence").
  { unfold VALID_FEATURE_TYPES, FEATURE_TYPE_SEQUENCE, FEATURE_TYPE_SENTENCE.
    rewrite !elem_of_cons, elem_of_nil. tauto. }
  unfold Features_init, validate_type.
  case_bool_decide as Hty; simpl.
  - split; [|split]; try done.
    split; [done|]. intros [? ?]. apply Hin in Hty. tauto.
  - split; [|split]; try done.
    + split; [|done]. intros _. rewrite Hin in Hty. tauto.
    + by intros e [= <-].
Qed.

Lemma sp_shift_shift (k k' : nat) (e : nat * nat * Qc) :
  sp_shift k (sp_shift k' e) = sp_shift (k + k') e.
Proof. destruct e as [[i j] v]. simpl. by rewrite Nat.add_assoc. Qed.

Lemma hstack_assoc (a b c : spmatrix) :
  hstack (hstack a b) c = hstack a (hstack b c).
Proof.
  unfold hstack; simpl. f_equal; [lia|].
  rewrite map_app, <- (assoc_L app). do 2 f_equal.
  rewrite map_map. apply map_ext. intros e. by rewrite sp_shift_shift.
Qed.

Lemma _combine_sparse_features_eq (a b : spmatrix) :
  sp_nrows a = sp_nrows b → _combine_sparse_features a b = Ok (hstack a b).
Proof.
  intros H. unfold _combine_sparse_features. by rewrite H, Nat.eqb_refl.
Qed.

Lemma _combine_sparse_features_ne (a b : spmatrix) :
  sp_nrows a ≠ sp_nrows b →
  _combine_sparse_features a b
  = Raise (ValueError (SparseSequenceDimensionMismatch (sp_nrows a) (sp_nrows b))).
Proof.
  intros H. unfold _combine_sparse_features.
  by apply Nat.eqb_neq in H as ->.
Qed.

(** X2.  Sparse combination does not depend on the grouping: for three
    sparse matrices with the same row count both groupings return the same
    matrix, and when the row counts are not all equal both groupings raise
    the [ValueError] on the sequence dimension. *)
Theorem X2_sparse_combination_grouping (a b c : spmatrix) :
  (sp_nrows a = sp_nrows b → sp_nrows b = sp_nrows c →
     combine_sparse_left a b c = Ok (hstack (hstack a b) c)
     ∧ combine_sparse_right a b c = combine_sparse_left a b c)
  ∧ (¬ (sp_nrows a = sp_nrows b ∧ sp_nrows b = sp_nrows c) →
     ∃ n m n' m',
       combine_sparse_left a b c
         = Raise (ValueError (SparseSequenceDimensionMismatch n m))
       ∧ combine_sparse_right a b c
         = Raise (ValueError (SparseSequenceDimensionMismatch n' m'))).
Proof.
  unfold combine_sparse_left, combine_sparse_right. split.
  - intros Hab Hbc.
    rewrite (_combine_sparse_features_eq a b Hab),
            (_combine_sparse_features_eq b c Hbc); simpl.
    rewrite !_combine_sparse_features_eq by (simpl; congruence).
    by rewrite hstack_assoc.
  - intros Hne.
    destruct (decide (sp_nrows a = sp_nrows b)) as [Hab|Hab].
    + assert (Hbc : sp_nrows b ≠ sp_nrows c) by tauto.
      rewrite (_combine_sparse_features_eq a b Hab),
              (_combine_sparse_features_ne b c Hbc); simpl.
      rewrite _combine_sparse_features_ne by (simpl; congruence).
      eauto 10.
    + rewrite (_combine_sparse_features_ne a b Hab); simpl.
      destruct (decide (sp_nrows b = sp_nrows c)) as [Hbc|Hbc].
      * rewrite (_combine_sparse_features_eq b c Hbc); simpl.
        rewrite _combine_sparse_features_ne by (simpl; congruence).
        eauto 10.
      * rewrite (_combine_sparse_features_ne b c Hbc); simpl. eauto 10.
Qed.

Lemma X2_sparse_combination_grouping_witness :
  combine_sparse_right (SpMatrix 2 1 [(0, 0, q 1)]) (SpMatrix 2 2 [(1, 1, q 2)])
                       (SpMatrix 2 1 [(1, 0, q 3)])
  = Ok (SpMatrix 2 4 [(0, 0, q 1); (1, 2, q 2); (1, 3, q 3)]).
Proof.
  destruct (X2_sparse_combination_grouping
              (SpMatrix 2 1 [(0, 0, q 1)]) (SpMatrix 2 2 [(1, 1, q 2)])
              (SpMatrix 2 1 [(1, 0, q 3)])) as [Heq _].
  destruct (Heq eq_refl eq_refl) as [Hl ->]. rewrite Hl. reflexivity.
Defined.

(** ** Pooling *)

Lemma reduce_axis0_length (op : Qc → Qc → Qc) (rows : list (list Qc)) (w : nat) :
  rows ≠ [] → Forall (λ r, length r = w) rows → length (reduce_axis0 op rows) = w.
Proof.
  destruct rows as [|r rs]; [done|]. intros _ Hall.
  by apply (reduce_axis0_spec op r rs w).
Qed.

Lemma _calculate_cls_vector_shape (a pooled : ndarray) (p : string) :
  nd_wf a → _calculate_cls_vector a p = Ok pooled →
  nd_cols pooled = nd_cols a
  ∧ ∃ m, nd_rows pooled = [m] ∧ length m = nd_cols a.
Proof.
  intros Hwf. pose proof (non_zero_rows_wf a Hwf) as Hnzwf.
  destruct (decide (non_zero_rows a = [])) as [Hnz|Hnz].
  - rewrite _calculate_cls_vector_zero by done. intros [= <-]. simpl.
    split; [done|]. eexists. split; [done|]. by rewrite length_replicate.
  - rewrite _calculate_cls_vector_nonzero by done.
    pose proof (np_array_cols _ (nd_cols a) Hnz Hnzwf) as Hcols.
    pose proof (reduce_axis0_length Qcplus _ _ Hnz Hnzwf) as Hsum.
    pose proof (reduce_axis0_length Qc_max _ _ Hnz Hnzwf) as Hmax.
    repeat case_bool_decide; intros [= <-];
      unfold np_mean_axis0, np_max_axis0; cbn [nd_cols nd_rows];
      (split; [done|]); eexists; (split; [done|]).
    + by rewrite length_map.
    + done.
Qed.

(** X3.  Whatever the policy, a pooled vector has exactly one row, and for
    a rectangular input that row is as wide as the input, so the result
    can be concatenated with other sentence vectors of one row. *)
Theorem X3_pooled_vector_shape (a pooled : ndarray) (p : string)
    (Hwf : nd_wf a) (Hpool : _calculate_cls_vector a p = Ok pooled) :
  nd_len pooled = 1 ∧ nd_cols pooled = nd_cols a ∧ nd_wf pooled.
Proof.
  destruct (_calculate_cls_vector_shape a pooled p Hwf Hpool) as (Hc & m & Hm & Hlen).
  unfold nd_len, nd_wf. rewrite Hm, Hc. repeat split; try done.
  by repeat constructor.
Qed.

Lemma X3_pooled_vector_shape_witness :
  nd_len (NdArray 2 [[q 3; q 4]]) = 1 ∧ nd_cols (NdArray 2 [[q 3; q 4]]) = 2.
Proof.
  destruct (X3_pooled_vector_shape
              (NdArray 2 [[q 1; q 2]; [q 0; q 0]; [q 3; q 4]])
              (NdArray 2 [[q 3; q 4]]) MAX_POOLING) as (H1 & H2 & _).
  - unfold nd_wf; simpl. repeat constructor.
  - vm_compute. reflexivity.
  - split; [exact H1 | exact H2].
Defined.

Lemma Qc_div_one (x : Qc) : (x / Qc_of_nat 1)%Qc = x.
Proof.
  assert (Qc_of_nat 1 = 1%Qc) as -> by (apply Qc_is_canon; reflexivity).
  unfold Qcdiv. assert ((/ 1)%Qc = 1%Qc) as -> by (apply Qc_is_canon; reflexivity).
  apply Qcmult_1_r.
Qed.

Lemma all_zero_replicate (m : list Qc) :
  Forall (λ x, x = 0%Qc) m → m = replicate (length m) 0%Qc.
Proof. induction 1 as [|x m -> _ IH]; simpl; [done | by rewrite <- IH]. Qed.

(** X4.  Pooling is idempotent: pooling the pooled vector of a rectangular
    matrix again, under the same policy, returns the same vector. *)
Theorem X4_pooling_idempotent (a pooled : ndarray) (p : string)
    (Hwf : nd_wf a) (Hpool : _calculate_cls_vector a p = Ok pooled) :
  _calculate_cls_vector pooled p = Ok pooled.
Proof.
  destruct (_calculate_cls_vector_shape a pooled p Hwf Hpool) as (Hc & m & Hm & Hlen).
  destruct pooled as [w rows]; simpl in *; subst w rows.
  destruct (row_any m) eqn:Hany.
  - assert (Hnz : non_zero_rows (NdArray (nd_cols a) [m]) = [m]).
    { unfold non_zero_rows; simpl. rewrite filter_cons, decide_True; [done|].
      by rewrite Hany. }
    rewrite _calculate_cls_vector_nonzero by by rewrite Hnz.
    rewrite Hnz.
    assert (Hp : p = MEAN_POOLING ∨ p = MAX_POOLING).
    { destruct (decide (non_zero_rows a = [])) as [Ha|Ha].
      - rewrite _calculate_cls_vector_zero in Hpool by done.
        injection Hpool as Hm. subst m.
        assert (row_any (replicate (nd_cols a) 0%Qc) = false) as Hz
          by (apply row_any_false, Forall_replicate; done).
        congruence.
      - rewrite _calculate_cls_vector_nonzero in Hpool by done.
        repeat case_bool_decide; try discriminate; auto. }
    unfold np_mean_axis0, np_max_axis0, np_array, nd_len; simpl.
    destruct Hp as [-> | ->]; simpl; rewrite Hlen; [|done].
    do 3 f_equal.
    rewrite <- (map_id m) at 2. apply map_ext. intros x. apply Qc_div_one.
  - assert (Hnz : non_zero_rows (NdArray (nd_cols a) [m]) = []).
    { unfold non_zero_rows; simpl. rewrite filter_cons, decide_False; [done|].
      rewrite Hany. by intros []. }
    rewrite _calculate_cls_vector_zero by done.
    apply row_any_false, all_zero_replicate in Hany. rewrite Hlen in Hany.
    unfold np_zeros; simpl. by rewrite <- Hany.
Qed.

Lemma X4_pooling_idempotent_witness :
  _calculate_cls_vector (NdArray 2 [[q 2; q 3]]) MEAN_POOLING
  = Ok (NdArray 2 [[q 2; q 3]]).
Proof.
  apply (X4_pooling_idempotent (NdArray 2 [[q 1; q 2]; [q 0; q 0]; [q 3; q 4]])).
  - unfold nd_wf; simpl. repeat constructor.
  - qc_eval.
Defined.

(** ** [Message]: annotations *)

(** X6.  [get] reads back what [set] stored under any property but the
    text; [get] of the text property is the message text even after a
    [set] on that property; [set] leaves every other property as it was;
    and a property without an entry reads as the default. *)
Theorem X6_get_after_set (self : Message) (prop : string) (info d : pyval)
    (add_to_output : bool) :
  (prop ≠ TEXT → get (set self prop info add_to_output) prop d = info)
  ∧ get (set self TEXT info add_to_output) TEXT d = PyStr (text self)
  ∧ (∀ other, other ≠ prop →
       get (set self prop info add_to_output) other d = get self other d)
  ∧ (prop ≠ TEXT → data self !! prop = None → get self prop d = d)
  ∧ text (set self prop info add_to_output) = text self
  ∧ message_features (set self prop info add_to_output) = message_features self.
Proof.
  unfold get, set; simpl. repeat apply conj; try done.
  - intros Hprop. rewrite bool_decide_eq_false_2 by done.
    by rewrite lookup_insert_eq.
  - intros other Hother. case_bool_decide; [done|].
    by rewrite lookup_insert_ne.
  - intros Hprop Hnone. rewrite bool_decide_eq_false_2 by done.
    by rewrite Hnone.
Qed.

Lemma X6_get_after_set_witness :
  get (set message_a "intent" (PyStr "greet") false) "intent" PyNone = PyStr "greet".
Proof.
  apply (proj1 (X6_get_after_set message_a "intent" (PyStr "greet") PyNone false)).
  discriminate.
Defined.

(** X7.  A property set with [add_to_output] appears in the export
    restricted to output properties, with the value set, unless that value
    is [None]; a property set without the flag appears there only if it
    was an output property before.  Either way the unrestricted export
    shows the value set, unless it is [None]. *)
Theorem X7_set_then_export (self : Message) (prop : string) (info : pyval)
    (Hprop : prop ≠ "text") :
  (info ≠ PyNone → as_dict (set self prop info true) true !! prop = Some info)
  ∧ as_dict (set self prop PyNone true) true !! prop = None
  ∧ (prop ∉ output_properties self →
       as_dict (set self prop info false) true !! prop = None)
  ∧ (info ≠ PyNone → ∀ flag, as_dict (set self prop info flag) false !! prop = Some info)
  ∧ (∀ flag only, as_dict (set self prop info flag) only !! "text"
                  = Some (PyStr (text self))).
Proof.
  repeat apply conj.
  - intros Hinfo. apply as_dict_lookup; [done|]. simpl.
    rewrite lookup_insert_eq. repeat split; [done|]. intros _. set_solver.
  - destruct (as_dict _ true !! prop) as [v|] eqn:Hv; [|done].
    apply as_dict_lookup in Hv as (Hd & Hne & _); [|done]. simpl in Hd.
    rewrite lookup_insert_eq in Hd. congruence.
  - intros Hout.
    destruct (as_dict _ true !! prop) as [v|] eqn:Hv; [|done].
    apply as_dict_lookup in Hv as (_ & _ & Hin); [|done]. simpl in Hin.
    by destruct Hout; auto.
  - intros Hinfo flag. apply as_dict_lookup; [done|]. simpl.
    rewrite lookup_insert_eq. repeat split; [done|]. discriminate.
  - intros flag only. unfold as_dict. by rewrite lookup_insert_eq.
Qed.

Lemma X7_set_then_export_witness :
  as_dict (set message_a "intent" (PyStr "greet") true) true !! "intent"
  = Some (PyStr "greet").
Proof.
  apply (proj1 (X7_set_then_export message_a "intent" (PyStr "greet") ltac:(discriminate))).
  discriminate.
Defined.

(** ** [Message]: intents and response keys *)

Lemma str_app_cons (c : ascii) (s1 s2 : string) :
  String c s1 +:+ s2 = String c (s1 +:+ s2).
Proof. reflexivity. Qed.

Lemma str_app_empty_l (s : string) : EmptyString +:+ s = s.
Proof. reflexivity. Qed.

Lemma str_app_assoc (s1 s2 s3 : string) : (s1 +:+ s2) +:+ s3 = s1 +:+ s2 +:+ s3.
Proof.
  induction s1 as [|c s1 IH]; [done|]. by rewrite !str_app_cons, IH.
Qed.

Lemma str_app_empty_r (s : string) : s +:+ EmptyString = s.
Proof.
  induction s as [|c s IH]; [done|]. by rewrite str_app_cons, IH.
Qed.

Lemma str_prefix_drop (p s : string) :
  String.prefix p s = true → s = p +:+ str_drop (String.length p) s.
Proof.
  revert s. induction p as [|c p IH]; intros s.
  - by destruct s.
  - destruct s as [|c' s]; cbn [String.prefix String.length str_drop]; [done|].
    destruct (Ascii.ascii_dec c c') as [->|]; [|done].
    intros H. by rewrite str_app_cons, <- IH.
Qed.

Lemma str_drop_length (n : nat) (s : string) :
  String.length (str_drop n s) ≤ String.length s - n.
Proof.
  revert s. induction n as [|n IH]; intros [|c s]; simpl; try lia. apply IH.
Qed.

Lemma split_from_skip (sep s : string) (k : nat) (cur : string) :
  split_from sep s k cur = split_from sep (str_drop k s) 0 cur.
Proof.
  revert k. induction s as [|c s IH]; intros [|k]; simpl; done.
Qed.

Lemma split_from_nonempty (sep s : string) (k : nat) (cur : string) :
  split_from sep s k cur ≠ [].
Proof.
  revert k cur. induction s as [|c s IH]; intros k cur; cbn [split_from]; [done|].
  destruct k; [|apply IH].
  destruct (String.prefix sep (String c s)); [done | apply IH].
Qed.

Lemma concat_cons_nonempty (sep x : string) (l : list string) :
  l ≠ [] → String.concat sep (x :: l) = x +:+ sep +:+ String.concat sep l.
Proof. by destruct l. Qed.

(** Joining the pieces of a split with the separator gives the string
    back. *)
Lemma concat_split_from (c0 : ascii) (t0 : string) (n : nat) :
  ∀ s cur, String.length s ≤ n →
    String.concat (String c0 t0) (split_from (String c0 t0) s 0 cur) = cur +:+ s.
Proof.
  induction n as [|n IH]; intros s cur Hlen.
  - destruct s; [|simpl in Hlen; lia]. simpl. by rewrite str_app_empty_r.
  - destruct s as [|c s]; [simpl; by rewrite str_app_empty_r|].
    cbn [split_from].
    destruct (String.prefix (String c0 t0) (String c s)) eqn:Hpre.
    + rewrite concat_cons_nonempty by apply split_from_nonempty.
      rewrite split_from_skip.
      apply str_prefix_drop in Hpre.
      cbn [String.length str_drop] in Hpre.
      replace (String.length (String c0 t0) - 1) with (String.length t0)
        by (simpl; lia).
      rewrite IH.
      * by rewrite str_app_empty_l, <- Hpre.
      * pose proof (str_drop_length (String.length t0) s). simpl in Hlen. lia.
    + rewrite IH by (simpl in Hlen; lia).
      by rewrite str_app_assoc, str_app_cons, str_app_empty_l.
Qed.

Lemma concat_py_split (c0 : ascii) (t0 s : string) :
  String.concat (String c0 t0) (py_split (String c0 t0) s) = s.
Proof.
  unfold py_split. by rewrite (concat_split_from c0 t0 (String.length s)).
Qed.

Section IntentFacts.

Variable delimiter_head : ascii.
Variable delimiter_tail : string.

Lemma separate_two (s a b : string) :
  separate_intent_response_key delimiter_head delimiter_tail s = Some (a, Some b) →
  s = a +:+ RESPONSE_IDENTIFIER_DELIMITER delimiter_head delimiter_tail +:+ b.
Proof.
  unfold separate_intent_response_key. intros H.
  rewrite <- (concat_py_split delimiter_head delimiter_tail s).
  unfold RESPONSE_IDENTIFIER_DELIMITER in *.
  destruct (py_split _ s) as [|x [|y [|z l]]]; try discriminate.
  by injection H as -> ->.
Qed.

Lemma separate_one (s a : string) :
  separate_intent_response_key delimiter_head delimiter_tail s = Some (a, None) →
  s = a.
Proof.
  unfold separate_intent_response_key. intros H.
  rewrite <- (concat_py_split delimiter_head delimiter_tail s).
  unfold RESPONSE_IDENTIFIER_DELIMITER in *.
  destruct (py_split _ s) as [|x [|y [|z l]]]; try discriminate.
  by injection H as ->.
Qed.

End IntentFacts.

(** X8.  What [separate_intent_response_key] returns puts the intent back
    together: a pair of intent and response key joined by the delimiter is
    the original string, and an intent returned without a response key is
    the original string itself.  A string without characters separates
    into itself and no response key. *)
Theorem X8_separate_intent_response_key_joins
    (delimiter_head : ascii) (delimiter_tail original_intent : string) :
  (∀ a b, separate_intent_response_key delimiter_head delimiter_tail original_intent
            = Some (a, Some b) →
          original_intent
          = a +:+ RESPONSE_IDENTIFIER_DELIMITER delimiter_head delimiter_tail +:+ b)
  ∧ (∀ a, separate_intent_response_key delimiter_head delimiter_tail original_intent
            = Some (a, None) →
          original_intent = a)
  ∧ separate_intent_response_key delimiter_head delimiter_tail EmptyString
    = Some (EmptyString, None).
Proof.
  split; [|split].
  - intros a b. apply separate_two.
  - intros a. apply separate_one.
  - done.
Qed.

Lemma X8_separate_intent_response_key_joins_witness :
  "faq/ask_weather" = "faq" +:+ RESPONSE_IDENTIFIER_DELIMITER "/" "" +:+ "ask_weather".
Proof.
  apply (proj1 (X8_separate_intent_response_key_joins "/" "" "faq/ask_weather")).
  reflexivity.
Defined.

(** X9.  Building a message from a non-empty intent and reading the
    combined intent back returns the intent that was given, unless the
    intent separates into a name and an empty response key (it ends with
    its only delimiter): then the name alone is read back and the trailing
    delimiter is lost.  The attribute names are taken distinct from each
    other and from the text attribute. *)
Theorem X9_build_then_combined_intent
    (INTENT RESPONSE_KEY_ATTRIBUTE ENTITIES : string)
    (delimiter_head : ascii) (delimiter_tail : string)
    (bool_other : pyval → result bool) (str_other : pyval → string)
    (txt intent : string) (entities : pyval) (m : Message)
    (HIT : INTENT ≠ TEXT) (HRT : RESPONSE_KEY_ATTRIBUTE ≠ TEXT)
    (HIR : INTENT ≠ RESPONSE_KEY_ATTRIBUTE)
    (HEI : ENTITIES ≠ INTENT) (HER : ENTITIES ≠ RESPONSE_KEY_ATTRIBUTE)
    (Hintent : intent ≠ EmptyString)
    (Hbuild : build INTENT RESPONSE_KEY_ATTRIBUTE ENTITIES delimiter_head
                    delimiter_tail bool_other txt (Some intent) entities = Ok m) :
  ((∀ a, separate_intent_response_key delimiter_head delimiter_tail intent
           ≠ Some (a, Some EmptyString)) →
     get_combined_intent_response_key INTENT RESPONSE_KEY_ATTRIBUTE delimiter_head
       delimiter_tail bool_other str_other m = Ok intent)
  ∧ (∀ a, separate_intent_response_key delimiter_head delimiter_tail intent
            = Some (a, Some EmptyString) →
          intent = a +:+ RESPONSE_IDENTIFIER_DELIMITER delimiter_head delimiter_tail
          ∧ get_combined_intent_response_key INTENT RESPONSE_KEY_ATTRIBUTE
              delimiter_head delimiter_tail bool_other str_other m = Ok a)
  ∧ text m = txt
  ∧ message_features m = [].
Proof.
  unfold build in Hbuild. simpl default in Hbuild.
  assert (str_truthy intent = true) as Htruthy by by destruct intent.
  rewrite Htruthy in Hbuild.
  destruct (separate_intent_response_key delimiter_head delimiter_tail intent)
    as [[a r]|] eqn:Hsep; [|discriminate Hbuild].
  assert (Hget : ∀ d0 : gmap string pyval,
    d0 !! INTENT = Some (PyStr a) →
    ∀ m0, (truthy ← py_bool bool_other entities;
           Ok (Message_init txt
                 (Some (if truthy : bool then <[ENTITIES := entities]> d0 else d0))
                 None None None)) = Ok m0 →
    text m0 = txt ∧ message_features m0 = []
    ∧ get m0 INTENT PyNone = PyStr a
    ∧ get m0 RESPONSE_KEY_ATTRIBUTE PyNone
      = default PyNone (d0 !! RESPONSE_KEY_ATTRIBUTE)).
  { intros d0 Hd0 m0 Hm0.
    destruct (py_bool bool_other entities) as [t|e]; [|discriminate Hm0].
    injection Hm0 as <-. unfold get; simpl.
    rewrite !bool_decide_eq_false_2 by done.
    destruct t; rewrite ?lookup_insert_ne by done; rewrite Hd0;
      repeat split; by destruct (d0 !! RESPONSE_KEY_ATTRIBUTE). }
  unfold get_combined_intent_response_key.
  destruct r as [b|]; simpl default in Hbuild.
  - destruct (str_truthy b) eqn:Hb; simpl in Hbuild.
    + apply Hget in Hbuild as (Ht & Hf & Hi & Hr);
        [|by rewrite lookup_insert_ne, lookup_insert_eq].
      rewrite Hi, Hr, lookup_insert_eq; simpl. rewrite Hb; simpl.
      split; [|split; [|done]].
      * intros _. f_equal. symmetry. by apply separate_two.
      * intros a' [= ? ->]. discriminate Hb.
    + apply Hget in Hbuild as (Ht & Hf & Hi & Hr); [|by rewrite lookup_insert_eq].
      rewrite Hi, Hr, lookup_insert_ne, lookup_empty by done; simpl.
      destruct b; [|done].
      apply separate_two in Hsep. rewrite str_app_empty_r in Hsep.
      split; [|split; [|done]].
      * intros Hno. by destruct (Hno a).
      * intros a' [= ->]. by rewrite str_app_empty_r.
  - simpl in Hbuild.
    apply Hget in Hbuild as (Ht & Hf & Hi & Hr); [|by rewrite lookup_insert_eq].
    rewrite Hi, Hr, lookup_insert_ne, lookup_empty by done; simpl.
    apply separate_one in Hsep. subst a. rewrite str_app_empty_r.
    split; [|split]; done.
Qed.

Lemma X9_build_then_combined_intent_witness :
  ∃ m, build "intent" "response_key" "entities" "/" "" (λ _, Ok true)
             "hello" (Some "faq/ask_weather") PyNone = Ok m
       ∧ get_combined_intent_response_key "intent" "response_key" "/" ""
           (λ _, Ok true) (λ _, "") m = Ok "faq/ask_weather".
Proof.
  eexists. split; [reflexivity|].
  refine (proj1 (X9_build_then_combined_intent
                   "intent" "response_key" "entities" "/" "" (λ _, Ok true) (λ _, "")
                   "hello" "faq/ask_weather" PyNone _ _ _ _ _ _ _ eq_refl) _);
    discriminate.
Defined.

(** X10.  A message without a response key (no entry, [None], or the
    empty string) has its intent alone as combined intent, with no
    delimiter; and when it has no intent either, the combined intent is
    the text 'None', not an error. *)
Theorem X10_combined_intent_without_response_key
    (INTENT RESPONSE_KEY_ATTRIBUTE : string)
    (delimiter_head : ascii) (delimiter_tail : string)
    (bool_other : pyval → result bool) (str_other : pyval → string)
    (self : Message)
    (HIT : INTENT ≠ TEXT) (HRT : RESPONSE_KEY_ATTRIBUTE ≠ TEXT)
    (Hkey : data self !! RESPONSE_KEY_ATTRIBUTE = None
            ∨ data self !! RESPONSE_KEY_ATTRIBUTE = Some PyNone
            ∨ data self !! RESPONSE_KEY_ATTRIBUTE = Some (PyStr EmptyString)) :
  (∀ intent, data self !! INTENT = Some (PyStr intent) →
     get_combined_intent_response_key INTENT RESPONSE_KEY_ATTRIBUTE delimiter_head
       delimiter_tail bool_other str_other self = Ok intent)
  ∧ (data self !! INTENT = None ∨ data self !! INTENT = Some PyNone →
     get_combined_intent_response_key INTENT RESPONSE_KEY_ATTRIBUTE delimiter_head
       delimiter_tail bool_other str_other self = Ok "None").
Proof.
  unfold get_combined_intent_response_key, get.
  rewrite !bool_decide_eq_false_2 by done.
  assert (py_bool bool_other
            (match data self !! RESPONSE_KEY_ATTRIBUTE with
             | Some v => v | None => PyNone end) = Ok false) as ->.
  { by destruct Hkey as [-> | [-> | ->]]. }
  simpl. split.
  - intros intent ->. simpl. by rewrite str_app_empty_r.
  - by intros [-> | ->].
Qed.

Lemma X10_combined_intent_without_response_key_witness :
  get_combined_intent_response_key "intent" "response_key" "/" ""
    (λ _, Ok true) (λ _, "") message_a = Ok "None".
Proof.
  refine (proj2 (X10_combined_intent_without_response_key
                   "intent" "response_key" "/" "" (λ _, Ok true) (λ _, "")
                   message_a _ _ _) _).
  - discriminate.
  - discriminate.
  - left. reflexivity.
  - left. reflexivity.
Defined.

(** X11.  Whenever the training-data export returns, it holds neither the
    response attribute nor the response-key attribute, and every key other
    than these two and the intent is exported exactly as by [as_dict]; if
    the intent is distinct from those two attributes and its exported
    value is true, the export holds the combined intent under it. *)
Theorem X11_as_dict_nlu_drops_response
    (INTENT RESPONSE RESPONSE_KEY_ATTRIBUTE : string)
    (delimiter_head : ascii) (delimiter_tail : string)
    (bool_other : pyval → result bool) (str_other : pyval → string)
    (self : Message) (d : gmap string pyval)
    (Hexport : as_dict_nlu INTENT RESPONSE RESPONSE_KEY_ATTRIBUTE delimiter_head
                 delimiter_tail bool_other str_other self = Ok d) :
  d !! RESPONSE = None
  ∧ d !! RESPONSE_KEY_ATTRIBUTE = None
  ∧ (∀ key, key ≠ INTENT → key ≠ RESPONSE → key ≠ RESPONSE_KEY_ATTRIBUTE →
       d !! key = as_dict self false !! key)
  ∧ (INTENT ≠ RESPONSE → INTENT ≠ RESPONSE_KEY_ATTRIBUTE →
       py_bool bool_other (default PyNone (as_dict self false !! INTENT)) = Ok true →
       ∃ combined,
         get_combined_intent_response_key INTENT RESPONSE_KEY_ATTRIBUTE delimiter_head
           delimiter_tail bool_other str_other self = Ok combined
         ∧ d !! INTENT = Some (PyStr combined))
  ∧ (INTENT ≠ RESPONSE → INTENT ≠ RESPONSE_KEY_ATTRIBUTE →
       py_bool bool_other (default PyNone (as_dict self false !! INTENT)) = Ok false →
       d !! INTENT = as_dict self false !! INTENT).
Proof.
  unfold as_dict_nlu in Hexport.
  destruct (py_bool bool_other (default PyNone (as_dict self false !! INTENT)))
    as [t|e] eqn:Hbool; [|discriminate Hexport].
  simpl in Hexport.
  assert (Hd : ∃ d1 : gmap string pyval,
    d = delete RESPONSE (delete RESPONSE_KEY_ATTRIBUTE d1)
    ∧ (∀ key, key ≠ INTENT → d1 !! key = as_dict self false !! key)
    ∧ (t = true → ∃ combined,
         get_combined_intent_response_key INTENT RESPONSE_KEY_ATTRIBUTE delimiter_head
           delimiter_tail bool_other str_other self = Ok combined
         ∧ d1 !! INTENT = Some (PyStr combined))
    ∧ (t = false → d1 = as_dict self false)).
  { destruct t.
    - destruct (get_combined_intent_response_key _ _ _ _ _ _ self) as [c|e];
        [|discriminate Hexport].
      simpl in Hexport. injection Hexport as <-.
      eexists. split; [done|]. repeat split.
      + intros key Hkey. by rewrite lookup_insert_ne.
      + intros _. exists c. by rewrite lookup_insert_eq.
      + discriminate.
    - simpl in Hexport. injection Hexport as <-.
      eexists. split; [done|]. repeat split; try done. }
  destruct Hd as (d1 & -> & Hother & Htrue & Hfalse).
  split; [|split; [|split; [|split]]].
  - by rewrite lookup_delete_eq.
  - destruct (decide (RESPONSE = RESPONSE_KEY_ATTRIBUTE)) as [->|Hne].
    + by rewrite lookup_delete_eq.
    + by rewrite lookup_delete_ne, lookup_delete_eq.
  - intros key Hk1 Hk2 Hk3. rewrite !lookup_delete_ne by done. by apply Hother.
  - intros H1 H2 [= ->]. destruct (Htrue eq_refl) as (c & Hc & Hl).
    exists c. split; [done|]. by rewrite !lookup_delete_ne.
  - intros H1 H2 [= ->]. rewrite !lookup_delete_ne by done.
    by rewrite (Hfalse eq_refl).
Qed.

Lemma X11_as_dict_nlu_drops_response_witness :
  ∃ d, as_dict_nlu "intent" "response" "response_key" "/" "" (λ _, Ok true) (λ _, "")
         (set (set message_a "intent" (PyStr "faq") false)
              "response_key" (PyStr "ask") false) = Ok d
       ∧ d !! "response_key" = None
       ∧ d !! "intent" = Some (PyStr "faq/ask").
Proof.
  eexists. split; [reflexivity|].
  destruct (X11_as_dict_nlu_drops_response
              "intent" "response" "response_key" "/" "" (λ _, Ok true) (λ _, "")
              (set (set message_a "intent" (PyStr "faq") false)
                   "response_key" (PyStr "ask") false) _ eq_refl)
    as (_ & Hkey & _ & Hintent & _).
  split; [exact Hkey|].
  destruct Hintent as (c & Hc & Hl); [discriminate | discriminate | reflexivity |].
  rewrite Hl. f_equal. f_equal.
  assert (Ok c = Ok "faq/ask") as Heq by (rewrite <- Hc; reflexivity).
  by injection Heq.
Defined.

(** ** The spaCy adapter: outcomes, errors and training *)

Lemma only_appends_refl (m : Message) : only_appends m m.
Proof.
  repeat split. exists []. by rewrite app_nil_r.
Qed.

Lemma only_appends_trans (m1 m2 m3 : Message) :
  only_appends m1 m2 → only_appends m2 m3 → only_appends m1 m3.
Proof.
  intros (Ht & Hti & Hd & Ho & l & Hl) (Ht' & Hti' & Hd' & Ho' & l' & Hl').
  repeat split; try congruence.
  exists (l ++ l'). by rewrite Hl', Hl, (assoc_L app).
Qed.

Lemma only_appends_with_spacy_features (m : Message) (attribute alias : string)
    (sequence pooled : ndarray) :
  only_appends m (with_spacy_features m attribute alias sequence pooled).
Proof. repeat split. by eexists. Qed.

(** A stored value that is not a document is iterated all the same: an
    empty string has no items and is featurized as an empty document; a
    string with characters raises on the first of them. *)
Example empty_string_is_featurized :
  _set_spacy_features example_SPACY_DOCS (mkSpacyFeaturizer defaults MEAN_POOLING)
    TEXT (set message_with_doc "text_spacy_doc" (PyStr "") false)
  = (Ok tt,
     with_spacy_features
       (set message_with_doc "text_spacy_doc" (PyStr "") false)
       TEXT "spacy_featurizer" (NdArray 0 []) (NdArray 0 [[]])).
Proof. reflexivity. Qed.

Example string_is_not_a_document :
  _set_spacy_features example_SPACY_DOCS (mkSpacyFeaturizer defaults MEAN_POOLING)
    TEXT (set message_with_doc "text_spacy_doc" (PyStr "hi") false)
  = (Raise (AttributeError "str" "text"),
     set message_with_doc "text_spacy_doc" (PyStr "hi") false).
Proof. reflexivity. Qed.

(** Every run of [_set_spacy_features] ends in one of three ways: it
    raises and leaves the message as it was, it returns without touching
    the message, or it returns after appending the two records for the
    tokens that the stored value yields. *)
Lemma _set_spacy_features_outcome (SPACY_DOCS : gmap string string)
    (self : SpacyFeaturizer) (attribute : string) (message : Message) :
  (∃ e, _set_spacy_features SPACY_DOCS self attribute message = (Raise e, message))
  ∨ _set_spacy_features SPACY_DOCS self attribute message = (Ok tt, message)
  ∨ (∃ key doc pooled alias,
       SPACY_DOCS !! attribute = Some key
       ∧ tokens_of (get message key PyNone) = Ok doc
       ∧ _calculate_cls_vector (_features_for_doc doc) (pooling_operation self)
         = Ok pooled
       ∧ component_config self !! ALIAS = Some alias
       ∧ _set_spacy_features SPACY_DOCS self attribute message
         = (Ok tt, with_spacy_features message attribute alias
                     (_features_for_doc doc) pooled)).
Proof.
  destruct (SPACY_DOCS !! attribute) as [key|] eqn:Hdocs.
  - assert (get message key PyNone = PyNone ∨ get message key PyNone ≠ PyNone)
      as [Hnone|Hnone] by (destruct (get message key PyNone); auto).
    + right; left. by apply (_set_spacy_features_None _ _ _ _ key).
    + destruct (tokens_of (get message key PyNone)) as [doc|e] eqn:Htokens.
      * rewrite (_set_spacy_features_tokens _ _ _ _ key Hdocs doc Hnone Htokens).
        destruct (_calculate_cls_vector _ _) as [pooled|e] eqn:Hpool;
          [|by left; eexists].
        destruct (component_config self !! ALIAS) as [alias|] eqn:Halias;
          [|by left; eexists].
        right; right. by exists key, doc, pooled, alias.
      * left. exists e.
        by apply (_set_spacy_features_not_iterable _ _ _ _ key Hdocs e).
  - left. eexists. unfold _set_spacy_features, get_doc, getitem.
    by rewrite Hdocs.
Qed.

Lemma _set_spacy_features_frame (SPACY_DOCS : gmap string string)
    (self : SpacyFeaturizer) (attribute : string) (message : Message) :
  only_appends message (_set_spacy_features SPACY_DOCS self attribute message).2.
Proof.
  destruct (_set_spacy_features_outcome SPACY_DOCS self attribute message)
    as [[e ->] | [-> | (key & doc & pooled & alias & _ & _ & _ & _ & ->)]]; simpl.
  - apply only_appends_refl.
  - apply only_appends_refl.
  - apply only_appends_with_spacy_features.
Qed.

(** X12.  Whatever the adapter, the attribute and the message, and
    whether the call returns or raises, [_set_spacy_features] leaves the
    text, the time, the data and the output properties as they were and
    keeps every stored record in place; a call that raises changes
    nothing; and the call appends either no record or exactly two, a dense
    SEQUENCE record followed by a dense SENTENCE record for the attribute,
    with one origin. *)
Theorem X12_set_spacy_features_only_appends (SPACY_DOCS : gmap string string)
    (self : SpacyFeaturizer) (attribute : string) (message : Message) :
  only_appends message (_set_spacy_features SPACY_DOCS self attribute message).2
  ∧ (∀ e, (_set_spacy_features SPACY_DOCS self attribute message).1 = Raise e →
          (_set_spacy_features SPACY_DOCS self attribute message).2 = message)
  ∧ (message_features (_set_spacy_features SPACY_DOCS self attribute message).2
       = message_features message
     ∨ ∃ s p,
         message_features (_set_spacy_features SPACY_DOCS self attribute message).2
           = message_features message ++ [s; p]
         ∧ type s = FEATURE_TYPE_SEQUENCE ∧ type p = FEATURE_TYPE_SENTENCE
         ∧ message_attribute s = attribute ∧ message_attribute p = attribute
         ∧ is_dense s = true ∧ is_dense p = true
         ∧ origin s = origin p).
Proof.
  destruct (_set_spacy_features_outcome SPACY_DOCS self attribute message)
    as [[e ->] | [-> | (key & doc & pooled & alias & _ & _ & _ & _ & ->)]]; simpl.
  - split; [apply only_appends_refl|]. split; [done | by left].
  - split; [apply only_appends_refl|]. split; [done | by left].
  - split; [apply only_appends_with_spacy_features|]. split; [done|].
    right. eexists _, _. repeat split.
Qed.

(** X13.  The two lookups that can fail: an attribute without an entry in
    [SPACY_DOCS] raises [KeyError] for the attribute, and an adapter
    without an alias in its configuration raises [KeyError] for the alias
    key once the document has been pooled; in both cases the message is
    left as it was. *)
Theorem X13_set_spacy_features_key_errors (SPACY_DOCS : gmap string string)
    (self : SpacyFeaturizer) (attribute : string) (message : Message) :
  (SPACY_DOCS !! attribute = None →
     _set_spacy_features SPACY_DOCS self attribute message
     = (Raise (KeyError attribute), message))
  ∧ (∀ key doc pooled,
       SPACY_DOCS !! attribute = Some key →
       get message key PyNone = PyDoc doc →
       _calculate_cls_vector (_features_for_doc doc) (pooling_operation self)
         = Ok pooled →
       component_config self !! ALIAS = None →
       _set_spacy_features SPACY_DOCS self attribute message
       = (Raise (KeyError ALIAS), message)).
Proof.
  split.
  - intros Hdocs. unfold _set_spacy_features, get_doc, getitem. by rewrite Hdocs.
  - intros key doc pooled Hdocs Hdoc Hpool Halias.
    rewrite (_set_spacy_features_Doc _ _ _ _ key Hdocs doc Hdoc).
    by rewrite Hpool, Halias.
Qed.

Lemma X13_set_spacy_features_key_errors_witness :
  _set_spacy_features example_SPACY_DOCS adapter_median "response" message_with_doc
  = (Raise (KeyError "response"), message_with_doc).
Proof.
  apply (proj1 (X13_set_spacy_features_key_errors example_SPACY_DOCS adapter_median
                  "response" message_with_doc)).
  reflexivity.
Defined.

(** X14.  A document without any non-blank token, the empty document
    included, is featurized without error under every pooling value, valid
    or not: the SEQUENCE record holds an array with no rows and the
    SENTENCE record one row with no columns, whatever the width of the
    token vectors. *)
Theorem X14_blank_document (SPACY_DOCS : gmap string string)
    (self : SpacyFeaturizer) (attribute key alias : string) (message : Message)
    (doc : list token)
    (Hdocs : SPACY_DOCS !! attribute = Some key)
    (Halias : component_config self !! ALIAS = Some alias)
    (Hdoc : get message key PyNone = PyDoc doc)
    (Hblank : non_blank_tokens doc = []) :
  _set_spacy_features SPACY_DOCS self attribute message
  = (Ok tt,
     with_spacy_features message attribute alias (NdArray 0 []) (NdArray 0 [[]])).
Proof.
  rewrite (_set_spacy_features_Doc _ _ _ _ key Hdocs doc Hdoc).
  assert (Hfeat : _features_for_doc doc = NdArray 0 []).
  { destruct (_features_for_doc_rows doc) as [Hrows _].
    rewrite Hblank in Hrows. simpl in Hrows.
    unfold _features_for_doc in *. simpl in Hrows. by rewrite Hrows. }
  rewrite Hfeat. rewrite _calculate_cls_vector_zero by done.
  by rewrite Halias.
Qed.

Lemma X14_blank_document_witness :
  _set_spacy_features example_SPACY_DOCS adapter_median TEXT
    (set message_with_doc "text_spacy_doc" (PyDoc blank_document) false)
  = (Ok tt,
     with_spacy_features
       (set message_with_doc "text_spacy_doc" (PyDoc blank_document) false)
       TEXT "spacy_featurizer" (NdArray 0 []) (NdArray 0 [[]])).
Proof.
  apply (X14_blank_document example_SPACY_DOCS adapter_median TEXT "text_spacy_doc"
           "spacy_featurizer" _ blank_document);
    reflexivity.
Defined.

Lemma get_only_appends (before after : Message) (prop : string) (d : pyval) :
  only_appends before after → get after prop d = get before prop d.
Proof.
  intros (Ht & _ & Hd & _). unfold get. by rewrite Ht, Hd.
Qed.

(** X15.  The adapter does not look at the records a message already
    stores: featurizing a message a second time appends the same two
    records again, so the message ends with two copies of the pair. *)
Theorem X15_featurizing_twice_duplicates (SPACY_DOCS : gmap string string)
    (self : SpacyFeaturizer) (attribute key alias : string) (message : Message)
    (doc : list token) (pooled : ndarray)
    (Hdocs : SPACY_DOCS !! attribute = Some key)
    (Halias : component_config self !! ALIAS = Some alias)
    (Hdoc : get message key PyNone = PyDoc doc)
    (Hpool : _calculate_cls_vector (_features_for_doc doc) (pooling_operation self)
             = Ok pooled) :
  (_set_spacy_features SPACY_DOCS self attribute;;
   _set_spacy_features SPACY_DOCS self attribute) message
  = (Ok tt,
     mkMessage (text message) (time message) (data message)
       (message_features message
        ++ [mkFeatures (PyNdarray (_features_for_doc doc))
                       FEATURE_TYPE_SEQUENCE alias attribute;
            mkFeatures (PyNdarray pooled) FEATURE_TYPE_SENTENCE alias attribute;
            mkFeatures (PyNdarray (_features_for_doc doc))
                       FEATURE_TYPE_SEQUENCE alias attribute;
            mkFeatures (PyNdarray pooled) FEATURE_TYPE_SENTENCE alias attribute])
       (output_properties message)).
Proof.
  unfold mbind, M_bind.
  rewrite (_set_spacy_features_Doc _ _ _ _ key Hdocs doc Hdoc), Hpool, Halias.
  rewrite (_set_spacy_features_Doc _ _ _ _ key Hdocs doc).
  - rewrite Hpool, Halias. unfold with_spacy_features; simpl.
    by rewrite <- (assoc_L app).
  - rewrite <- Hdoc. apply get_only_appends, only_appends_with_spacy_features.
Qed.

Lemma X15_featurizing_twice_duplicates_witness :
  length (message_features
            ((_set_spacy_features example_SPACY_DOCS
                (mkSpacyFeaturizer defaults MEAN_POOLING) TEXT;;
              _set_spacy_features example_SPACY_DOCS
                (mkSpacyFeaturizer defaults MEAN_POOLING) TEXT) message_with_doc).2)
  = 4.
Proof.
  rewrite (X15_featurizing_twice_duplicates example_SPACY_DOCS
             (mkSpacyFeaturizer defaults MEAN_POOLING) TEXT "text_spacy_doc"
             "spacy_featurizer" message_with_doc [Token "hi" [q 1; q 2]]
             (NdArray 2 [[q 1; q 2]]) eq_refl eq_refl eq_refl).
  - reflexivity.
  - qc_eval.
Defined.

Lemma set_spacy_features_for_only_appends (SPACY_DOCS : gmap string string)
    (self : SpacyFeaturizer) (attributes : list string) (message : Message) :
  only_appends message (set_spacy_features_for SPACY_DOCS self attributes message).2.
Proof.
  revert message. induction attributes as [|attribute rest IH]; intros message.
  - apply only_appends_refl.
  - cbn [set_spacy_features_for]. unfold mbind, M_bind.
    pose proof (_set_spacy_features_frame SPACY_DOCS self attribute message)
      as Hstep.
    destruct (_set_spacy_features SPACY_DOCS self attribute message) as [[[]|e] m'];
      simpl in *; [|done].
    eapply only_appends_trans; [exact Hstep | apply IH].
Qed.

(** X16.  Training, whether it returns or raises on the way, hands back as
    many examples as it was given, in the same order, and each of them
    differs from the original at most by records appended to its feature
    list: no text, data, output property or stored record is changed, and
    nothing is removed. *)
Theorem X16_train_only_appends (SPACY_DOCS : gmap string string)
    (DENSE_FEATURIZABLE_ATTRIBUTES : list string) (self : SpacyFeaturizer)
    (intent_examples : list Message) :
  length (train SPACY_DOCS DENSE_FEATURIZABLE_ATTRIBUTES self intent_examples).2
    = length intent_examples
  ∧ Forall2 only_appends intent_examples
            (train SPACY_DOCS DENSE_FEATURIZABLE_ATTRIBUTES self intent_examples).2.
Proof.
  assert (H : Forall2 only_appends intent_examples
                (train SPACY_DOCS DENSE_FEATURIZABLE_ATTRIBUTES self intent_examples).2).
  { induction intent_examples as [|example rest IH]; [constructor|].
    cbn [train].
    pose proof (set_spacy_features_for_only_appends SPACY_DOCS self
                  DENSE_FEATURIZABLE_ATTRIBUTES example) as Hstep.
    destruct (set_spacy_features_for SPACY_DOCS self DENSE_FEATURIZABLE_ATTRIBUTES
                example) as [[[]|e] example']; simpl in Hstep.
    - destruct (train SPACY_DOCS DENSE_FEATURIZABLE_ATTRIBUTES self rest)
        as [r rest']; simpl in *.
      by constructor.
    - simpl. constructor; [done|].
      clear. induction rest; constructor; [apply only_appends_refl | done]. }
  split; [|done]. symmetry. by eapply Forall2_length.
Qed.

(** X17.  Featurizing changes neither what a message is equal to nor its
    hash: after [_set_spacy_features], returned or raised, the message
    compares to every object, and every message compares to it, as
    before, and its hash is the same. *)
Theorem X17_featurizing_keeps_equality_and_hash
    (Ordered : Type) (ordered : gmap string pyval → Ordered)
    (ordered_eq : Ordered → Ordered → bool) (ordered_str : Ordered → string)
    (py_hash : string * string → Z)
    (SPACY_DOCS : gmap string string) (self : SpacyFeaturizer)
    (attribute : string) (message : Message) :
  (∀ other,
     Message_eq Ordered ordered ordered_eq
       (_set_spacy_features SPACY_DOCS self attribute message).2 other
     = Message_eq Ordered ordered ordered_eq message other)
  ∧ (∀ other,
       Message_eq Ordered ordered ordered_eq other
         (ObjMessage (_set_spacy_features SPACY_DOCS self attribute message).2)
       = Message_eq Ordered ordered ordered_eq other (ObjMessage message))
  ∧ Message_hash Ordered ordered ordered_str py_hash
      (_set_spacy_features SPACY_DOCS self attribute message).2
    = Message_hash Ordered ordered ordered_str py_hash message.
Proof.
  destruct (_set_spacy_features_frame SPACY_DOCS self attribute message)
    as (Ht & _ & Hd & _).
  unfold Message_eq, Message_hash.
  repeat split.
  - intros [other|v]; [|done]. by rewrite Ht, Hd.
  - intros other. by rewrite Ht, Hd.
  - by rewrite Ht, Hd.
Qed.

(** ** Further facts on combination and on intents *)

(** X18.  Sparse combination keeps matrices well formed: when both
    operands store their entries inside their shapes, so does the matrix
    that [_combine_sparse_features] returns. *)
Theorem X18_sparse_combination_well_formed (a b c : spmatrix)
    (Ha : sp_wf a) (Hb : sp_wf b)
    (Hcombine : _combine_sparse_features a b = Ok c) :
  sp_wf c.
Proof.
  unfold _combine_sparse_features in Hcombine.
  destruct (Nat.eqb_spec (sp_nrows a) (sp_nrows b)) as [Hrows|]; [|discriminate].
  injection Hcombine as <-.
  unfold sp_wf, hstack in *; simpl.
  apply Forall_app. split.
  - eapply Forall_impl; [exact Ha|]. intros [[i j] v]; simpl. lia.
  - apply Forall_forall. intros e He.
    apply list_elem_of_fmap in He as ([[i j] v] & -> & He).
    eapply Forall_forall in Hb; [|exact He]. simpl in *. lia.
Qed.

Lemma X18_sparse_combination_well_formed_witness :
  sp_wf (SpMatrix 2 3 [(0, 0, q 1); (1, 2, q 2)]).
Proof.
  apply (X18_sparse_combination_well_formed
           (SpMatrix 2 1 [(0, 0, q 1)]) (SpMatrix 2 2 [(1, 1, q 2)])).
  - unfold sp_wf; simpl. repeat constructor.
  - unfold sp_wf; simpl. repeat constructor.
  - reflexivity.
Defined.

Lemma split_from_no_occurrence (sep s cur : string) :
  (∀ a b, s ≠ a +:+ sep +:+ b) → split_from sep s 0 cur = [cur +:+ s].
Proof.
  revert cur. induction s as [|c s IH]; intros cur Hno.
  - simpl. by rewrite str_app_empty_r.
  - cbn [split_from].
    destruct (String.prefix sep (String c s)) eqn:Hpre.
    + apply str_prefix_drop in Hpre. by destruct (Hno EmptyString _ Hpre).
    + rewrite IH.
      * by rewrite str_app_assoc, str_app_cons, str_app_empty_l.
      * intros a b ->. by destruct (Hno (String c a) b).
Qed.

(** X19.  An intent in which the delimiter does not occur separates into
    itself and no response key. *)
Theorem X19_intent_without_delimiter
    (delimiter_head : ascii) (delimiter_tail original_intent : string)
    (Hno : ∀ a b, original_intent
                  ≠ a +:+ RESPONSE_IDENTIFIER_DELIMITER delimiter_head delimiter_tail
                      +:+ b) :
  separate_intent_response_key delimiter_head delimiter_tail original_intent
  = Some (original_intent, None).
Proof.
  unfold separate_intent_response_key, py_split.
  by rewrite split_from_no_occurrence.
Qed.

Lemma X19_intent_without_delimiter_witness :
  separate_intent_response_key "/" "" "hi" = Some ("hi", None).
Proof.
  apply X19_intent_without_delimiter.
  intros [|c1 [|c2 [|c3 a]]] b H; try discriminate H.
Defined.
